(** * E-commerce UK retailer dashboard: the data-preparation layer

    A shallow embedding of [scripts/DataProcessor.py] (the transaction store)
    and of the date framing of [scripts/Dashboard_Ecommerce.py], followed by
    the properties of the specification that concern them.

    Conventions of the embedding.
    - A polars frame is a list of records; every column is nullable
      ([option]), as in polars. Expressions follow polars' null rules: a
      comparison with null is null, [filter] keeps the rows whose predicate
      is [true] (not null), join keys that are null never match.
    - [Int64] columns are [Z]; a column sum wraps to 64 bits.
    - A finite [Float64] value is the rational it stands for ([Q]); every
      operation rounds its exact result to the nearest [Float64], ties to
      even ([Py.round64_mag]). Infinities and NaN have no place in a
      column: what is proved of sums assumes columns whose values stay
      within the range ([Polars.within_float64]). The order in which the
      engine adds up a column is its own ([float_sum]).
    - A base table without any row stands for the frame that polars
      cannot collect (the parsed dates joined at load have no type):
      [total_revenue_vs_country] and
      [Dashboard.plot_article_timeseries_outcome] raise there; the other
      queries are modelled by the rows they return when they return.
    - A polars [Date] is a number of days since 1970-01-01 and a polars
      [Datetime] a number of microseconds since 1970-01-01T00:00, as polars
      stores them.
    - What the libraries leave open (the order in which [group_by] emits its
      groups, [strptime] on arbitrary text, the null rule of [is_in]) is a
      field of the class [Runtime]; general theorems hold for every
      instance, and [cpython] is the instance used to evaluate examples. *)

From Stdlib Require Import ZArith QArith Qround Qabs Qpower List String Ascii.
From Stdlib Require Import Bool Lia Lqa.
From Stdlib Require Import Permutation Sorted.
Import ListNotations.

Local Open Scope string_scope.
Local Open Scope Z_scope.

(* ------------------------------------------------------------------ *)
(** ** Python values used by the program *)

Module Py.

(** Exceptions that can leave the program's functions: Python's
    [ZeroDivisionError] and [OverflowError] and polars' [SchemaError].
    The code defines no exception class of its own; [EmptyDatasetError] is
    the name the specification uses. *)
Inductive Exn := ZeroDivisionError | EmptyDatasetError | SchemaError | OverflowError.

Inductive Result (A : Type) :=
| Ok (a : A)
| Raise (e : Exn).
Arguments Ok {A} a.
Arguments Raise {A} e.

(** [datetime.datetime]; the formats of the program never set the
    microsecond, so it is left out. *)
Record datetime := mk_datetime {
  year : Z; month : Z; day : Z; hour : Z; minute : Z; second : Z }.

(** [datetime.date]. *)
Record date := mk_date { d_year : Z; d_month : Z; d_day : Z }.

(** [datetime.date()] *)
Definition date_of (dt : datetime) : date :=
  mk_date (year dt) (month dt) (day dt).

(** The calendar helpers of CPython's [datetime] module. *)
Definition _is_leap (y : Z) : bool :=
  (y mod 4 =? 0) && (negb (y mod 100 =? 0) || (y mod 400 =? 0)).

Definition _days_in_month (y m : Z) : Z :=
  if (m =? 2) && _is_leap y then 29
  else nth (Z.to_nat m) [0; 31; 28; 31; 30; 31; 30; 31; 31; 30; 31; 30; 31] 0.

Definition _days_before_year (y : Z) : Z :=
  let y' := y - 1 in y' * 365 + y' / 4 - y' / 100 + y' / 400.

Definition _days_before_month (y m : Z) : Z :=
  nth (Z.to_nat m) [0; 0; 31; 59; 90; 120; 151; 181; 212; 243; 273; 304; 334] 0
  + (if (2 <? m) && _is_leap y then 1 else 0).

Definition _ymd2ord (y m d : Z) : Z :=
  _days_before_year y + _days_before_month y m + d.

(** [date(1970, 1, 1).toordinal()] *)
Definition epoch_ordinal : Z := 719163.

Definition us_per_day : Z := 86400000000.

(** The value polars stores for a Python [date] and [datetime]. *)
Definition date_to_days (d : date) : Z :=
  _ymd2ord (d_year d) (d_month d) (d_day d) - epoch_ordinal.

Definition datetime_to_us (dt : datetime) : Z :=
  date_to_days (date_of dt) * us_per_day
  + ((hour dt * 60 + minute dt) * 60 + second dt) * 1000000.

(** The days of [date.min] and [date.max], and [datetime.max], counted
    from 1970 as polars counts them. *)
Definition date_min_days : Z := - 719162.
Definition date_max_days : Z := 2932896.
Definition datetime_max_us : Z := (date_max_days + 1) * us_per_day - 1.

(** Rounding of a non-negative rational to the nearest integer, ties to
    the even one, as [format] rounds the exact value of a float. *)
Definition round_half_even (q : Q) : Z :=
  let f := Qfloor q in
  let r := (q - inject_Z f)%Q in
  match (r ?= 1 # 2)%Q with
  | Lt => f
  | Gt => f + 1
  | Eq => if Z.even f then f else f + 1
  end.

Definition digit_char (d : Z) : ascii :=
  ascii_of_nat (48 + Z.to_nat d).

(** Decimal digits of a non-negative integer, most significant first;
    [fuel] bounds the number of digits. *)
Fixpoint digits_fuel (fuel : nat) (n : Z) (acc : string) : string :=
  match fuel with
  | O => acc
  | S fuel' =>
      let acc' := String (digit_char (n mod 10)) acc in
      if n / 10 =? 0 then acc' else digits_fuel fuel' (n / 10) acc'
  end.

Definition str_int (n : Z) : string :=
  digits_fuel (S (Z.to_nat (Z.log2 n))) n EmptyString.

(** [2 ** k] as a rational, for any integer [k]. *)
Definition pow2 (k : Z) : Q :=
  if 0 <=? k then inject_Z (2 ^ k) else 1 # Z.to_pos (2 ^ (- k)).

(** The exponent of the unit in the last place of the [Float64] nearest
    to a positive [q]: 52 below the binary exponent of [q], and never
    below that of the subnormal numbers. The binary exponent of [q] is the
    difference of the bit lengths of its numerator and denominator, or
    one less. *)
Definition ulp_exponent (q : Q) : Z :=
  let e0 := Z.log2 (Qnum q) - Z.log2 (Zpos (Qden q)) in
  if Qle_bool (pow2 e0) q then Z.max (e0 - 52) (- 1074)
  else if Qle_bool (pow2 (e0 - 1)) q then Z.max (e0 - 53) (- 1074)
  else - 1074.

(** The [Float64] nearest to a non-negative rational, ties to even;
    [None] when it rounds past the largest [Float64], to infinity. *)
Definition round64_mag (q : Q) : option Q :=
  if Qle_bool q 0 then Some 0%Q
  else
    let u := ulp_exponent q in
    let m := round_half_even (q * pow2 (- u)) in
    let r := Qred (inject_Z m * pow2 u) in
    if Qle_bool (pow2 1024) r then None else Some r.

Definition is_negative (q : Q) : bool := negb (Qle_bool 0 q).

(** Rounding of the value of a column; a value past the range is left as
    it is (the column would hold an infinity there). *)
Definition round64 (q : Q) : Q :=
  match round64_mag (Qabs q) with
  | Some r => if is_negative q then (- r)%Q else r
  | None => q
  end.

(** A Python [float] that comes out of arithmetic: finite, with its sign
    (a zero has one too), or infinite. *)
Inductive pyfloat :=
| Finite (negative : bool) (magnitude : Q)
| Infinite (negative : bool).

Definition round_signed (negative : bool) (magnitude : Q) : pyfloat :=
  match round64_mag magnitude with
  | Some r => Finite negative r
  | None => Infinite negative
  end.

(** [a / b] on two finite floats: a zero divisor raises; the quotient is
    rounded and has the sign the operands give it, also when it is zero.
    An operand that is zero is [+0.0], as a column sum is. *)
Definition truediv (a b : Q) : Result pyfloat :=
  if Qeq_bool b 0 then Raise ZeroDivisionError
  else Ok (round_signed (xorb (is_negative a) (is_negative b)) (Qabs a / Qabs b)).

(** [x * k] for a positive constant [k]. *)
Definition float_mul (x : pyfloat) (k : Q) : pyfloat :=
  match x with
  | Finite s m => round_signed s (m * k)
  | Infinite s => Infinite s
  end.

(** [f"{x:.2f}"]: the exact value of the float rounded to hundredths,
    ties to even; an infinity is written [inf]. *)
Definition format_2f (x : pyfloat) : string :=
  match x with
  | Finite s m =>
      let n := round_half_even (m * 100) in
      (if s then "-" else EmptyString)
        ++ str_int (n / 100) ++ "."
        ++ String (digit_char (n mod 100 / 10))
             (String (digit_char (n mod 10)) EmptyString)
  | Infinite s => (if s then "-" else EmptyString) ++ "inf"
  end.

End Py.

(* ------------------------------------------------------------------ *)
(** ** [datetime.strptime] on ASCII text

    A model of CPython's [_strptime] for the directives the program uses:
    the format is compiled to a regular expression (one named group per
    directive, a run of blanks becomes [\s+]), the text is matched from
    its start with the usual priority of alternatives, text left over is
    an error, and the fields must form a valid [datetime]. [None] stands
    for the [ValueError] raised otherwise. *)

Module Strptime.

Inductive CharClass :=
| AnyDigit                        (* \d *)
| Between (lo hi : ascii)         (* [lo-hi] *)
| Exactly (c : ascii).

Inductive Piece :=
| Named (name : ascii) (alts : list (list CharClass))
| Literal (c : ascii)
| Blanks.                         (* \s+ *)

Definition is_digit (c : ascii) : bool :=
  (48 <=? nat_of_ascii c)%nat && (nat_of_ascii c <=? 57)%nat.

Definition is_space (c : ascii) : bool :=
  let n := nat_of_ascii c in
  (n =? 32)%nat || ((9 <=? n)%nat && (n <=? 13)%nat)
  || ((28 <=? n)%nat && (n <=? 31)%nat).

Definition in_class (k : CharClass) (c : ascii) : bool :=
  match k with
  | AnyDigit => is_digit c
  | Between lo hi =>
      (nat_of_ascii lo <=? nat_of_ascii c)%nat
      && (nat_of_ascii c <=? nat_of_ascii hi)%nat
  | Exactly c' => Ascii.eqb c c'
  end.

(** The groups of [TimeRE.__init__]. *)
Definition directive (c : ascii) : option (list (list CharClass)) :=
  if Ascii.eqb c "d" then
    Some [ [Exactly "3"; Between "0" "1"]; [Between "1" "2"; AnyDigit];
           [Exactly "0"; Between "1" "9"]; [Between "1" "9"]; [Exactly " "; Between "1" "9"] ]
  else if Ascii.eqb c "H" then
    Some [ [Exactly "2"; Between "0" "3"]; [Between "0" "1"; AnyDigit]; [AnyDigit] ]
  else if Ascii.eqb c "m" then
    Some [ [Exactly "1"; Between "0" "2"]; [Exactly "0"; Between "1" "9"]; [Between "1" "9"] ]
  else if Ascii.eqb c "M" then
    Some [ [Between "0" "5"; AnyDigit]; [AnyDigit] ]
  else if Ascii.eqb c "S" then
    Some [ [Exactly "6"; Between "0" "1"]; [Between "0" "5"; AnyDigit]; [AnyDigit] ]
  else if Ascii.eqb c "Y" then
    Some [ [AnyDigit; AnyDigit; AnyDigit; AnyDigit] ]
  else None.

(** [TimeRE.pattern]; [prev_blank] tells that the previous character was
    a blank, whose run is already compiled. *)
Fixpoint compile (fmt : string) (prev_blank : bool) : option (list Piece) :=
  match fmt with
  | EmptyString => Some []
  | String c rest =>
      if is_space c then
        match compile rest true with
        | Some ps => Some (if prev_blank then ps else Blanks :: ps)
        | None => None
        end
      else if Ascii.eqb c "%" then
        match rest with
        | String d rest' =>
            match directive d, compile rest' false with
            | Some alts, Some ps => Some (Named d alts :: ps)
            | _, _ => None
            end
        | EmptyString => None
        end
      else
        match compile rest false with
        | Some ps => Some (Literal c :: ps)
        | None => None
        end
  end.

(** A sequence of classes against the start of the text. *)
Fixpoint match_classes (ks : list CharClass) (s : string)
  : option (string * string) :=
  match ks with
  | [] => Some (EmptyString, s)
  | k :: ks' =>
      match s with
      | String c s' =>
          if in_class k c then
            match match_classes ks' s' with
            | Some (m, rest) => Some (String c m, rest)
            | None => None
            end
          else None
      | EmptyString => None
      end
  end.

Definition first_some {A B : Type} (f : A -> option B) : list A -> option B :=
  fix go (l : list A) : option B :=
    match l with
    | [] => None
    | a :: l' => match f a with Some b => Some b | None => go l' end
    end.

(** [\s+] followed by [k]: greedy, giving blanks back one at a time. *)
Definition blanks_then {B : Type} (k : string -> option B) : string -> option B :=
  fix go (s : string) : option B :=
    match s with
    | String c s' =>
        if is_space c then
          match go s' with Some b => Some b | None => k s' end
        else None
    | EmptyString => None
    end.

Definition Captures := list (ascii * string).

(** [format_regex.match]: the first match in priority order, with the
    text it leaves. *)
Fixpoint match_pieces (ps : list Piece) (s : string) (caps : Captures)
  : option (Captures * string) :=
  match ps with
  | [] => Some (caps, s)
  | Literal c :: ps' =>
      match s with
      | String c' s' =>
          if Ascii.eqb c c' then match_pieces ps' s' caps else None
      | EmptyString => None
      end
  | Blanks :: ps' => blanks_then (fun s' => match_pieces ps' s' caps) s
  | Named n alts :: ps' =>
      first_some
        (fun alt =>
           match match_classes alt s with
           | Some (m, rest) => match_pieces ps' rest ((n, m) :: caps)
           | None => None
           end)
        alts
  end.

(** [int(text)] on a captured group (a day may carry a leading blank). *)
Fixpoint int_of (s : string) (acc : Z) : Z :=
  match s with
  | EmptyString => acc
  | String c s' =>
      if is_digit c then int_of s' (acc * 10 + Z.of_nat (nat_of_ascii c - 48))
      else int_of s' acc
  end.

Fixpoint capture (n : ascii) (caps : Captures) (default : Z) : Z :=
  match caps with
  | [] => default
  | (n', m) :: caps' =>
      if Ascii.eqb n n' then int_of m 0 else capture n caps' default
  end.

(** The checks of the [date] and [datetime] constructors. *)
Definition valid (dt : Py.datetime) : bool :=
  (1 <=? Py.year dt) && (Py.year dt <=? 9999)
  && (1 <=? Py.month dt) && (Py.month dt <=? 12)
  && (1 <=? Py.day dt)
  && (Py.day dt <=? Py._days_in_month (Py.year dt) (Py.month dt))
  && (0 <=? Py.hour dt) && (Py.hour dt <=? 23)
  && (0 <=? Py.minute dt) && (Py.minute dt <=? 59)
  && (0 <=? Py.second dt) && (Py.second dt <=? 59).

Definition strptime (data_string fmt : string) : option Py.datetime :=
  match compile fmt false with
  | None => None
  | Some ps =>
      match match_pieces ps data_string [] with
      | Some (caps, EmptyString) =>
          let dt := Py.mk_datetime
                      (capture "Y" caps 1900) (capture "m" caps 1)
                      (capture "d" caps 1) (capture "H" caps 0)
                      (capture "M" caps 0) (capture "S" caps 0) in
          if valid dt then Some dt else None
      | _ => None
      end
  end.

End Strptime.

(* ------------------------------------------------------------------ *)
(** ** What the libraries leave open *)

Class Runtime := {
  (** [datetime.strptime(text, format)]; [None] when it raises. *)
  strptime : string -> string -> option Py.datetime;
  (** The order in which [group_by] emits its groups: unspecified, some
      rearrangement of them. What is proved of a grouped result holds for
      each such rearrangement. *)
  group_order : forall A : Type, list A -> list A;
  group_order_perm :
    forall (A : Type) (l : list A), Permutation (group_order A l) l;
  (** Whether [is_in] lets a null match a null of the list (it does not
      in current polars, where a null operand gives null). *)
  nulls_equal : bool;
  (** The sum of the values of a [Float64] column: each addition rounds,
      and the order and grouping of the additions are the engine's own.
      The sum of no value is [0.0]. *)
  float_sum : list Q -> Q;
  float_sum_nil : float_sum [] = 0%Q }.

(** CPython on ASCII text, groups in order of first appearance, a column
    added up from its first value to its last. *)
#[export] Instance cpython : Runtime := {|
  strptime := Strptime.strptime;
  group_order := fun _ l => l;
  group_order_perm := fun _ l => Permutation_refl l;
  nulls_equal := false;
  float_sum := fun l => fold_left (fun acc x => Py.round64 (acc + x)) l 0%Q;
  float_sum_nil := eq_refl |}.

(* ------------------------------------------------------------------ *)
(** ** The polars operations the program composes *)

Module Polars.

Definition wrap64 (z : Z) : Z := (z + 2 ^ 63) mod 2 ^ 64 - 2 ^ 63.

(** *** Expressions *)

(** [col.str.starts_with(prefix)] *)
Definition str_starts_with (prefix : string) (v : option string) : option bool :=
  option_map (String.prefix prefix) v.

(** [col.str.replace] of the pattern [^prefix] by the empty text, for a
    literal [prefix]: the anchored pattern can only match at the start
    of the text. *)
Definition str_replace_caret (prefix : string) (v : option string) : option string :=
  option_map
    (fun s =>
       if String.prefix prefix s
       then substring (String.length prefix)
                      (String.length s - String.length prefix) s
       else s)
    v.

(** [col == literal], [col != literal] *)
Definition eq_lit (v : option string) (lit : string) : option bool :=
  option_map (fun s => String.eqb s lit) v.

Definition ne_lit (v : option string) (lit : string) : option bool :=
  option_map (fun s => negb (String.eqb s lit)) v.

(** [~e] and [e1 & e2] on nullable booleans. *)
Definition not_ (b : option bool) : option bool := option_map negb b.

Definition and_ (a b : option bool) : option bool :=
  match a, b with
  | Some false, _ | _, Some false => Some false
  | Some true, Some true => Some true
  | _, _ => None
  end.

Definition opt_Z_eqb (a b : option Z) : bool :=
  match a, b with
  | Some x, Some y => x =? y
  | None, None => true
  | _, _ => false
  end.

Definition opt_string_eqb (a b : option string) : bool :=
  match a, b with
  | Some x, Some y => String.eqb x y
  | None, None => true
  | _, _ => false
  end.

(** [col.is_in(values)] *)
Definition is_in `{Runtime} (v : option Z) (values : list (option Z)) : option bool :=
  match v with
  | None => if nulls_equal then Some (existsb (opt_Z_eqb None) values) else None
  | Some _ => Some (existsb (opt_Z_eqb v) values)
  end.

(** [a * b] for an [Int64] and a [Float64] column: the integer becomes a
    float and the product is rounded. *)
Definition mul_i64_f64 (a : option Z) (b : option Q) : option Q :=
  match a, b with
  | Some x, Some y => Some (Py.round64 (Py.round64 (inject_Z x) * Py.round64 y))
  | _, _ => None
  end.

(** *** Frames *)

(** [df.filter(pred)]: a row stays when the predicate is true. *)
Definition filter {R : Type} (pred : R -> option bool) (df : list R) : list R :=
  List.filter (fun r => match pred r with Some true => true | _ => false end) df.

(** Equality of join keys: column by column, a null matches nothing. *)
Fixpoint key_match (a b : list (option string)) : bool :=
  match a, b with
  | [], [] => true
  | Some x :: a', Some y :: b' => String.eqb x y && key_match a' b'
  | _, _ => false
  end.

(** [left.join(right, how="left")]: each left row once per matching
    right row, and once with nulls when nothing matches. *)
Definition join_left {L R : Type} (left_on : L -> list (option string))
    (right_on : R -> list (option string)) (left : list L) (right : list R)
  : list (L * option R) :=
  flat_map
    (fun l =>
       match List.filter (fun r => key_match (left_on l) (right_on r)) right with
       | [] => [(l, None)]
       | ms => map (fun r => (l, Some r)) ms
       end)
    left.

(** [left.join(right, how="anti")]: the left rows that match no right row. *)
Definition join_anti {L R : Type} (left_on : L -> list (option string))
    (right_on : R -> list (option string)) (left : list L) (right : list R)
  : list L :=
  List.filter
    (fun l => negb (existsb (fun r => key_match (left_on l) (right_on r)) right))
    left.

(** [Int64] and [Float64] column sums; nulls are skipped. *)
Definition sum_i64 (col : list (option Z)) : Z :=
  wrap64 (fold_right (fun v acc => match v with Some x => x + acc | None => acc end) 0 col).

Definition non_null {A : Type} (col : list (option A)) : list A :=
  flat_map (fun v => match v with Some x => [x] | None => [] end) col.

Definition sum_f64 `{Runtime} (col : list (option Q)) : Q :=
  float_sum (non_null col).

(** The values of a column leave room for their sums: the absolute values
    add up (exactly) to no more than [2 ** 1023], so that no sum of them,
    in whatever order, leaves the range of [Float64]. *)
Definition within_float64 (col : list (option Q)) : bool :=
  Qle_bool (fold_right (fun x acc => Qabs x + acc)%Q 0%Q (non_null col))
           (Py.pow2 1023).

(** Distinct values, in order of first appearance. *)
Fixpoint distinct {K : Type} (eqb : K -> K -> bool) (l : list K) : list K :=
  match l with
  | [] => []
  | k :: l' => k :: List.filter (fun k' => negb (eqb k' k)) (distinct eqb l')
  end.

(** [df.group_by(key)]: one group per distinct key (null is a key like
    any other), holding the rows of that key. *)
Definition group_by `{Runtime} {K R : Type} (eqb : K -> K -> bool)
    (key : R -> K) (df : list R) : list (K * list R) :=
  group_order _
    (map (fun k => (k, List.filter (fun r => eqb (key r) k) df))
         (distinct eqb (map key df))).

(** [group_by(key).agg(f)] *)
Definition agg {K R V : Type} (f : list R -> V) (groups : list (K * list R))
  : list (K * V) :=
  map (fun g => (fst g, f (snd g))) groups.

(** [df.sort(...)]: a stable insertion sort for the order [leb]. Ties
    come out in the order of the input, which after [group_by] is
    already arbitrary. *)
Fixpoint insert {R : Type} (leb : R -> R -> bool) (x : R) (l : list R) : list R :=
  match l with
  | [] => [x]
  | y :: l' => if leb x y then x :: l else y :: insert leb x l'
  end.

Definition sort {R : Type} (leb : R -> R -> bool) (df : list R) : list R :=
  fold_right (insert leb) [] df.

(** Ascending order of a nullable [Date], nulls first. *)
Definition date_leb (a b : option Z) : bool :=
  match a, b with
  | None, _ => true
  | Some _, None => false
  | Some x, Some y => x <=? y
  end.

(** [df.head(n)] *)
Definition head {R : Type} (n : nat) (df : list R) : list R := firstn n df.

(** Ascending order of a nullable text column, nulls first; text is
    compared character by character. *)
Definition str_leb (a b : option string) : bool :=
  match a, b with
  | None, _ => true
  | Some _, None => false
  | Some x, Some y => String.leb x y
  end.

(** [col.unique()]: the distinct values; like the groups of [group_by]
    they come in an unspecified order. *)
Definition unique `{Runtime} (col : list (option string)) : list (option string) :=
  group_order _ (distinct opt_string_eqb col).

End Polars.

(* ------------------------------------------------------------------ *)
(** ** [DataProcessor] *)

Module DataProcessor.

(** A row as [scan_csv] delivers it: the eight named columns, a field
    that is missing or does not parse being null ([ignore_errors]). *)
Record CsvRow := mk_csv {
  InvoiceNo : option string;
  StockCode : option string;
  Description : option string;
  Quantity : option Z;
  InvoiceDate : option string;
  UnitPrice : option Q;
  CustomerID : option string;
  Country : option string }.

(** A row of the base table [df_lazy]. *)
Record Row := mk_row {
  csv :> CsvRow;
  DateTime : option Z;
  Date : option Z;
  Revenue : option Q }.

(** A row of [dates_df]. *)
Record DateRow := mk_dates {
  dates_InvoiceDate : option string;
  dates_DateTime : option Z;
  dates_Date : option Z }.

Definition is_some {A : Type} (o : option A) : bool :=
  match o with Some _ => true | None => false end.

Definition no_null (r : CsvRow) : bool :=
  is_some (InvoiceNo r) && is_some (StockCode r) && is_some (Description r)
  && is_some (Quantity r) && is_some (InvoiceDate r) && is_some (UnitPrice r)
  && is_some (CustomerID r) && is_some (Country r).

(** [.drop_nulls()] *)
Definition drop_nulls (df : list CsvRow) : list CsvRow :=
  List.filter no_null df.

Definition formats : list string :=
  ["%m/%d/%Y %H:%M"; "%Y-%m-%d %H:%M:%S"].

(** The inner loop of [_read_csv]: the first format that parses decides.
    The bare [except] swallows every error, also the [TypeError] of a
    value that is not text. *)
Fixpoint try_formats `{Runtime} (val : option string) (fmts : list string)
  : option Py.datetime :=
  match fmts with
  | [] => None
  | fmt :: fmts' =>
      match match val with Some s => strptime s fmt | None => None end with
      | Some dt => Some dt
      | None => try_formats val fmts'
      end
  end.

Definition parse_date `{Runtime} (val : option string) : option Py.datetime :=
  try_formats val formats.

(** [dates_df]: one row per element of [invoice_dates]. *)
Definition dates_df `{Runtime} (invoice_dates : list (option string)) : list DateRow :=
  map (fun val =>
         let dt := parse_date val in
         mk_dates val (option_map Py.datetime_to_us dt)
                  (option_map (fun d => Py.date_to_days (Py.date_of d)) dt))
      invoice_dates.

Definition _read_csv `{Runtime} (scan : list CsvRow) : list Row :=
  let df_scan := drop_nulls scan in
  let invoice_dates := map InvoiceDate df_scan in
  let joined :=
    Polars.join_left (fun r => [InvoiceDate r]) (fun d => [dates_InvoiceDate d])
                     df_scan (dates_df invoice_dates) in
  map (fun lr =>
         let r := fst lr in
         mk_row r
                (match snd lr with Some d => dates_DateTime d | None => None end)
                (match snd lr with Some d => dates_Date d | None => None end)
                (Polars.mul_i64_f64 (Quantity r) (UnitPrice r)))
      joined.

(** A row of [returns_only]. *)
Record ReturnKey := mk_return {
  OriginalInvoiceNo : option string;
  ret_StockCode : option string;
  ret_CustomerID : option string }.

Definition returns_only (df_lazy : list Row) : list ReturnKey :=
  map (fun r : Row =>
         mk_return (Polars.str_replace_caret "C" (InvoiceNo r))
                   (StockCode r) (CustomerID r))
      (Polars.filter (fun r : Row => Polars.str_starts_with "C" (InvoiceNo r)) df_lazy).

Definition sales_only (df_lazy : list Row) : list Row :=
  Polars.join_anti
    (fun r : Row => [InvoiceNo r; StockCode r; CustomerID r])
    (fun k => [OriginalInvoiceNo k; ret_StockCode k; ret_CustomerID k])
    (Polars.filter
       (fun r : Row => Polars.not_ (Polars.str_starts_with "C" (InvoiceNo r)))
       df_lazy)
    (returns_only df_lazy).

Definition revenue_desc (a b : option string * Q) : bool :=
  Qle_bool (snd b) (snd a).

Definition revenue_per_article_per_country `{Runtime} (df_lazy : list Row)
    (country : string) : list (option string * Q) :=
  Polars.head 15
    (Polars.sort revenue_desc
       (Polars.agg (fun g => Polars.sum_f64 (map Revenue g))
          (Polars.group_by Polars.opt_string_eqb (fun r : Row => Description r)
             (Polars.filter (fun r : Row => Polars.eq_lit (Country r) country)
                (sales_only df_lazy))))).

(** A row of the frame [total_revenue_vs_country] returns. *)
Record ShareRow := mk_share {
  share_Country : string;
  share_Revenue : Q;
  share_pct : string }.

Definition total_revenue `{Runtime} (df_lazy : list Row) : Q :=
  Polars.sum_f64 (map Revenue df_lazy).

Definition country_revenue `{Runtime} (df_lazy : list Row) (country : string) : Q :=
  Polars.sum_f64
    (map Revenue
       (Polars.filter (fun r : Row => Polars.eq_lit (Country r) country) df_lazy)).

(** With no row in the base table the first [collect] raises polars'
    [SchemaError]: the parsed dates joined at load have no type. *)
Definition total_revenue_vs_country `{Runtime} (df_lazy : list Row) (country : string)
  : Py.Result (list ShareRow) :=
  match df_lazy with
  | [] => Py.Raise Py.SchemaError
  | _ :: _ =>
      let total := total_revenue df_lazy in
      let crev := country_revenue df_lazy country in
      match Py.truediv crev total with
      | Py.Raise e => Py.Raise e
      | Py.Ok ratio =>
          let country_perc := Py.format_2f (Py.float_mul ratio 100) in
          Py.Ok [ mk_share "Total Global Revenue" total EmptyString;
                  mk_share country crev country_perc ]
      end
  end.

Definition by_date (a b : option Z * Z) : bool :=
  Polars.date_leb (fst a) (fst b).

(** [.group_by("Date").agg(pl.col("Quantity").sum()).sort("Date")], the
    tail the two quantity queries share. *)
Definition quantity_by_date `{Runtime} (rows : list Row) : list (option Z * Z) :=
  Polars.sort by_date
    (Polars.agg (fun g => Polars.sum_i64 (map (fun r : Row => Quantity r) g))
       (Polars.group_by Polars.opt_Z_eqb Date rows)).

Definition get_country_quantity `{Runtime} (df_lazy : list Row)
    (country product : string) : list (option Z * Z) :=
  quantity_by_date
    (Polars.filter
       (fun r : Row =>
          Polars.and_ (Polars.eq_lit (Country r) country)
                      (Polars.eq_lit (Description r) product))
       (sales_only df_lazy)).

Definition get_global_quantity `{Runtime} (df_lazy : list Row)
    (country product : string) : list (option Z * Z) :=
  let country_df := get_country_quantity df_lazy country product in
  let country_dates := map fst country_df in
  quantity_by_date
    (Polars.filter
       (fun r : Row =>
          Polars.and_
            (Polars.and_ (Polars.ne_lit (Country r) country)
                         (Polars.eq_lit (Description r) product))
            (Polars.is_in (Date r) country_dates))
       (sales_only df_lazy)).

(** The property [unique_countries]. *)
Definition unique_countries `{Runtime} (df_lazy : list Row) : list (option string) :=
  Polars.sort Polars.str_leb
    (Polars.unique (map (fun r : Row => Country r) df_lazy)).

Definition unique_products `{Runtime} (df_lazy : list Row) (country : string)
  : list (option string) :=
  Polars.sort Polars.str_leb
    (Polars.unique
       (map (fun r : Row => Description r)
          (Polars.filter (fun r : Row => Polars.eq_lit (Country r) country)
             (sales_only df_lazy)))).

(** The object itself: the base table and the two views it caches,
    [None] until a view is first asked for. *)
Record Self := mk_self {
  self_df_lazy : list Row;
  _returns_only : option (list ReturnKey);
  _sales_only : option (list Row) }.

Definition __init__ `{Runtime} (scan : list CsvRow) : Self :=
  mk_self (_read_csv scan) None None.

(** The property [returns_only] as the code runs it: the value, and the
    object after the access. *)
Definition returns_only_property (self : Self) : list ReturnKey * Self :=
  match _returns_only self with
  | Some cached => (cached, self)
  | None =>
      let computed := returns_only (self_df_lazy self) in
      (computed, mk_self (self_df_lazy self) (Some computed) (_sales_only self))
  end.

(** The property [sales_only] as the code runs it; it reads the returns
    through the property above. *)
Definition sales_only_property (self : Self) : list Row * Self :=
  match _sales_only self with
  | Some cached => (cached, self)
  | None =>
      let non_returns :=
        Polars.filter
          (fun r : Row => Polars.not_ (Polars.str_starts_with "C" (InvoiceNo r)))
          (self_df_lazy self) in
      let (returns, self1) := returns_only_property self in
      let computed :=
        Polars.join_anti
          (fun r : Row => [InvoiceNo r; StockCode r; CustomerID r])
          (fun k => [OriginalInvoiceNo k; ret_StockCode k; ret_CustomerID k])
          non_returns returns in
      (computed, mk_self (self_df_lazy self1) (_returns_only self1) (Some computed))
  end.

End DataProcessor.

(* ------------------------------------------------------------------ *)
(** ** [Dashboard]: the framing of the time-series chart *)

Module Dashboard.

(** The [float] nearest to [0.1]. *)
Definition float_tenth : Q := 3602879701896397 # 36028797018963968.

(** [int(x)] on a float: truncation toward zero. *)
Definition int_of_float (x : Q) : Z := Z.quot (Qnum x) (Zpos (Qden x)).

(** [to_datetime_safe], on the dates of a polars [Date] column; the
    result is a [datetime], in microseconds since 1970. A [Date] column
    holds no [datetime], so the [isinstance] branch is never taken. *)
Definition to_datetime_safe (val : option Z) : Z :=
  match val with
  | None => Py.datetime_to_us (Py.mk_datetime 2000 1 1 0 0 0)
  | Some d => d * Py.us_per_day
  end.

(** [min(l)] and [max(l)] of a non-empty list. *)
Definition py_min (x : Z) (l : list Z) : Z := fold_left Z.min l x.
Definition py_max (x : Z) (l : list Z) : Z := fold_left Z.max l x.

(** [timedelta.days] of a difference of two [datetime]s. *)
Definition timedelta_days (us : Z) : Z := us / Py.us_per_day.

Record TimeSeries := mk_ts {
  country_dates : list Z;
  country_qty : list Z;
  global_dates : list Z;
  global_qty : list Z;
  first_date : Z;
  extended_date : Z;
  y_max : Z }.

(** [today_first] and [today_last] are the two readings of
    [datetime.today()] taken when there is no date at all. *)
Definition plot_article_timeseries `{Runtime} (df_lazy : list DataProcessor.Row)
    (country product : string) (today_first today_last : Z) : TimeSeries :=
  let country_df := DataProcessor.get_country_quantity df_lazy country product in
  let global_df := DataProcessor.get_global_quantity df_lazy country product in
  let country_dates := map to_datetime_safe (map fst country_df) in
  let country_qty := map snd country_df in
  let global_dates := map to_datetime_safe (map fst global_df) in
  let global_qty := map snd global_df in
  let all_dates := (country_dates ++ global_dates)%list in
  let first_date :=
    match all_dates with x :: l => py_min x l | [] => today_first end in
  let last_date :=
    match all_dates with x :: l => py_max x l | [] => today_last end in
  let extended_date :=
    last_date
    + int_of_float (inject_Z (timedelta_days (last_date - first_date)) * float_tenth)
      * Py.us_per_day in
  let y_max :=
    match (country_qty ++ global_qty)%list with x :: l => py_max x l | [] => 0 end in
  mk_ts country_dates country_qty global_dates global_qty
        first_date extended_date y_max.

(** A date that Python's [date] can hold; every date that [strptime]
    made is one. *)
Definition python_date (d : option Z) : bool :=
  match d with
  | Some x => (Py.date_min_days <=? x) && (x <=? Py.date_max_days)
  | None => true
  end.

(** The call of [plot_article_timeseries] itself. [plot_article_timeseries]
    above gives the values it computes; the call fails where polars or
    Python do: on a base table without rows the first [collect] raises
    [SchemaError], and [last_date + timedelta(...)] raises [OverflowError]
    when the sum leaves the range of [datetime]. The dates of the [Date]
    column are taken to be dates Python can hold. *)
Definition plot_article_timeseries_outcome `{Runtime}
    (df_lazy : list DataProcessor.Row) (country product : string)
    (today_first today_last : Z) : Py.Result TimeSeries :=
  match df_lazy with
  | [] => Py.Raise Py.SchemaError
  | _ :: _ =>
      let ts := plot_article_timeseries df_lazy country product today_first today_last in
      if (Py.date_min_days * Py.us_per_day <=? extended_date ts)
         && (extended_date ts <=? Py.datetime_max_us)
      then Py.Ok ts
      else Py.Raise Py.OverflowError
  end.

(** The [highlight] column of the map: 1 for the selected country, 0 for
    the others. *)
Definition highlight (countries : list (option string))
    (selected_country : option string) : list Z :=
  map (fun c => if Polars.opt_string_eqb c selected_country then 1 else 0) countries.

End Dashboard.

(* ------------------------------------------------------------------ *)
(** ** Sample data *)

Module Samples.
Import DataProcessor.

Definition line (inv stock desc : string) (qty : Z) (date : string)
    (price : Q) (cust country : string) : CsvRow :=
  mk_csv (Some inv) (Some stock) (Some desc) (Some qty) (Some date)
         (Some price) (Some cust) (Some country).

(** Two lines of one invoice, stamped with the same minute. *)
Definition same_minute : list CsvRow :=
  [ line "536365" "85123A" "WHITE HANGING HEART" 6 "12/1/2010 8:26"
         (255 # 100) "17850" "United Kingdom";
    line "536365" "71053" "WHITE METAL LANTERN" 6 "12/1/2010 8:26"
         (339 # 100) "17850" "United Kingdom" ].

(** Two sales of one product; the timestamp of the first is in no known
    format. *)
Definition bad_date : list CsvRow :=
[ line "1001" "W1" "Widget" 3 "not-a-date" 2 "42" "France";
  line "1002" "W1" "Widget" 2 "12/1/2010 8:26" 2 "42" "France" ].

(** A sale, the return that reverses it, and an unrelated sale. *)
Definition sale_and_return : list CsvRow :=
  [ line "1001" "W1" "Widget" 1 "12/1/2010 8:26" 2 "42" "France";
    line "C1001" "W1" "Widget" (-1) "12/2/2010 9:00" 2 "42" "France";
    line "1002" "W1" "Widget" 3 "12/3/2010 9:00" 2 "42" "France";
    line "1003" "W1" "Widget" 5 "2010-12-13 09:00:00" 2 "7" "Germany";
    line "1004" "W1" "Widget" 4 "12/3/2010 17:00" 2 "7" "Germany" ].

(** A sale and a return of equal amount: revenue sums to zero. *)
Definition zero_total : list CsvRow :=
  [ line "1001" "W1" "Widget" 1 "12/1/2010 8:26" 2 "42" "France";
    line "C1001" "W1" "Widget" (-1) "12/2/2010 9:00" 2 "42" "France" ].

(** Sales of one product five days apart. *)
Definition five_days : list CsvRow :=
  [ line "1001" "W1" "Widget" 1 "1/1/2011 8:00" 2 "42" "France";
    line "1002" "W1" "Widget" 2 "1/6/2011 9:00" 2 "42" "France" ].

(** Sales of one product ten days apart, the later one on the last day
    Python's [date] can hold. *)
Definition end_of_calendar : list CsvRow :=
  [ line "1001" "W1" "Widget" 1 "12/21/9999 8:00" 2 "42" "France";
    line "1002" "W1" "Widget" 2 "12/31/9999 9:00" 2 "42" "France" ].

(** The same product sold in two countries, each time with a timestamp in
    no known format. *)
Definition null_dates_abroad : list CsvRow :=
[ line "1001" "W1" "Widget" 3 "not-a-date" 2 "42" "France";
  line "1002" "W1" "Widget" 2 "12/1/2010 8:26" 2 "42" "France";
  line "2001" "W1" "Widget" 7 "no date either" 2 "7" "Germany";
  line "2002" "W1" "Widget" 5 "12/1/2010 9:00" 2 "7" "Germany" ].

(** Revenues that cancel in the total: [2 ** 1000] for France, its
    opposite and [2 ** -1000] for Germany. The prices are the floats
    written [1.0715086071862673e301] and [9.332636185032189e-302]. *)
Definition cancelling_revenues : list CsvRow :=
[ line "1001" "W1" "Widget" 1 "12/1/2010 8:26" (Py.pow2 1000) "42" "France";
  line "1002" "W1" "Widget" (-1) "12/2/2010 9:00" (Py.pow2 1000) "7" "Germany";
  line "1003" "W2" "Gadget" 1 "12/3/2010 9:00" (Py.pow2 (-1000)) "7" "Germany" ].

(** France sells for 23 out of a total of 160. *)
Definition share_23_of_160 : list CsvRow :=
[ line "1001" "W1" "Widget" 23 "12/1/2010 8:26" 1 "42" "France";
  line "1002" "W1" "Widget" 137 "12/2/2010 9:00" 1 "7" "Germany" ].


End Samples.

(* ------------------------------------------------------------------ *)
(** ** Facts about the polars operations *)

Section FilterFacts.
Context {R : Type}.

Lemma polars_filter_In (pred : R -> option bool) (df : list R) (r : R) :
  In r (Polars.filter pred df) <-> In r df /\ pred r = Some true.
Proof.
  unfold Polars.filter. rewrite filter_In.
  destruct (pred r) as [[|]|]; intuition congruence.
Qed.

Lemma polars_filter_as_list_filter (pred : R -> option bool) (f : R -> bool) df :
  (forall r, In r df -> (pred r = Some true <-> f r = true)) ->
  Polars.filter pred df = List.filter f df.
Proof.
  unfold Polars.filter. intros Hpf. apply filter_ext_in. intros r Hr.
  specialize (Hpf r Hr). destruct (pred r) as [[|]|], (f r); intuition congruence.
Qed.

Lemma filter_twice (f g : R -> bool) (l : list R) :
  List.filter f (List.filter g l) = List.filter (fun x => g x && f x) l.
Proof.
  induction l as [|x l IH]; simpl; [reflexivity|].
  destruct (g x); simpl; [destruct (f x)|]; now rewrite IH.
Qed.
End FilterFacts.

Lemma opt_string_eqb_eq (a b : option string) :
  Polars.opt_string_eqb a b = true <-> a = b.
Proof.
  destruct a as [x|], b as [y|]; simpl; try (intuition congruence).
  rewrite String.eqb_eq. intuition congruence.
Qed.

Lemma opt_Z_eqb_eq (a b : option Z) :
  Polars.opt_Z_eqb a b = true <-> a = b.
Proof.
  destruct a as [x|], b as [y|]; simpl; try (intuition congruence).
  rewrite Z.eqb_eq. intuition congruence.
Qed.

Lemma eq_lit_true (v : option string) (lit : string) :
  Polars.eq_lit v lit = Some true <-> v = Some lit.
Proof.
  destruct v as [s|]; simpl; [|intuition congruence].
  destruct (String.eqb_spec s lit); intuition congruence.
Qed.

Lemma ne_lit_true (v : option string) (lit : string) :
  Polars.ne_lit v lit = Some true <-> exists s, v = Some s /\ s <> lit.
Proof.
  destruct v as [s|]; simpl.
  - destruct (String.eqb_spec s lit); simpl; split.
    + discriminate.
    + intros (s' & [= <-] & Hne). contradiction.
    + intros _. eauto.
    + reflexivity.
  - split; [discriminate | intros (s & [=] & _)].
Qed.

Lemma and_true (a b : option bool) :
  Polars.and_ a b = Some true <-> a = Some true /\ b = Some true.
Proof. destruct a as [[|]|], b as [[|]|]; simpl; intuition congruence. Qed.

(** Join keys match exactly when they are equal and hold no null. *)
Lemma key_match_true (a b : list (option string)) :
  Polars.key_match a b = true <-> a = b /\ Forall (fun v => v <> None) a.
Proof.
  revert b. induction a as [|x a IH]; intros [|y b]; simpl.
  - intuition.
  - intuition congruence.
  - destruct x; intuition congruence.
  - destruct x as [x|], y as [y|]; try (split; [discriminate|]).
    + rewrite andb_true_iff, String.eqb_eq, IH. split.
      * intros (-> & -> & Hall). split; [reflexivity|].
        constructor; [discriminate | exact Hall].
      * intros ([= -> ->] & Hall). inversion Hall; subst. auto.
    + intros ([=] & _).
    + intros (_ & Hall). inversion Hall; subst. congruence.
    + intros (_ & Hall). inversion Hall; subst. congruence.
Qed.

Section JoinFacts.
Context {L R : Type}.
Variables (left_on : L -> list (option string)) (right_on : R -> list (option string)).

Lemma join_left_In (left : list L) (right : list R) (l : L) (o : option R) :
  In (l, o) (Polars.join_left left_on right_on left right) <->
  In l left /\
  match o with
  | Some r => In r right /\ Polars.key_match (left_on l) (right_on r) = true
  | None => forall r, In r right -> Polars.key_match (left_on l) (right_on r) = false
  end.
Proof.
  unfold Polars.join_left. rewrite in_flat_map. split.
  - intros (l' & Hl' & Hin).
    destruct (List.filter _ right) as [|m ms] eqn:Hf.
    + destruct Hin as [[= <- <-]|[]]. split; [assumption|].
      intros r Hr. destruct (Polars.key_match _ _) eqn:Hk; [|reflexivity].
      assert (In r []) as [] by (rewrite <- Hf; apply filter_In; auto).
    + apply in_map_iff in Hin as (r & [= <- <-] & Hr).
      rewrite <- Hf in Hr. apply filter_In in Hr. auto.
  - intros (Hl & Ho). exists l. split; [assumption|].
    destruct (List.filter _ right) as [|m ms] eqn:Hf.
    + destruct o as [r|]; [|left; reflexivity].
      destruct Ho as (Hr & Hk).
      assert (In r []) as [] by (rewrite <- Hf; apply filter_In; auto).
    + destruct o as [r|].
      * apply in_map_iff. exists r. split; [reflexivity|].
        rewrite <- Hf. apply filter_In. exact Ho.
      * assert (Hm : In m (m :: ms)) by (left; reflexivity).
        rewrite <- Hf in Hm. apply filter_In in Hm as (Hm & Hk).
        rewrite (Ho m Hm) in Hk. discriminate.
Qed.

Lemma join_left_length (left : list L) (right : list R) :
  List.length (Polars.join_left left_on right_on left right)
  = list_sum
      (map (fun l =>
              Nat.max 1
                (List.length
                   (List.filter
                      (fun r => Polars.key_match (left_on l) (right_on r)) right)))
           left).
Proof.
  unfold Polars.join_left. induction left as [|l left IH]; [reflexivity|].
  change (flat_map ?f (l :: left)) with (f l ++ flat_map f left)%list.
  rewrite length_app, IH. cbn [map list_sum]. f_equal.
  destruct (List.filter _ right) as [|m ms]; [reflexivity|].
  simpl. now rewrite length_map.
Qed.

(** A left join never loses a left row. *)
Lemma join_left_keeps (left : list L) (right : list R) (l : L) :
  In l left -> exists o, In (l, o) (Polars.join_left left_on right_on left right).
Proof.
  intros Hl. unfold Polars.join_left.
  destruct (List.filter (fun r => Polars.key_match (left_on l) (right_on r)) right)
    as [|m ms] eqn:Hf.
  - exists None. apply in_flat_map. exists l. rewrite Hf. simpl. auto.
  - exists (Some m). apply in_flat_map. exists l. rewrite Hf. simpl. auto.
Qed.

Lemma join_anti_In (left : list L) (right : list R) (l : L) :
  In l (Polars.join_anti left_on right_on left right) <->
  In l left /\
  forall r, In r right -> Polars.key_match (left_on l) (right_on r) = false.
Proof.
  unfold Polars.join_anti. rewrite filter_In, negb_true_iff. split.
  - intros (Hl & Hex). split; [assumption|]. intros r Hr.
    destruct (Polars.key_match _ _) eqn:Hk; [|reflexivity].
    assert (existsb (fun r => Polars.key_match (left_on l) (right_on r)) right = true)
      by (apply existsb_exists; eauto).
    congruence.
  - intros (Hl & Hno). split; [assumption|].
    destruct (existsb _ right) eqn:Hex; [|reflexivity].
    apply existsb_exists in Hex as (r & Hr & Hk). rewrite (Hno r Hr) in Hk. discriminate.
Qed.
End JoinFacts.

Section SortFacts.
Context {R : Type}.
Variable leb : R -> R -> bool.
Hypothesis leb_total : forall a b, leb a b = true \/ leb b a = true.
Hypothesis leb_trans : forall a b c, leb a b = true -> leb b c = true -> leb a c = true.

Lemma insert_perm (x : R) (l : list R) : Permutation (Polars.insert leb x l) (x :: l).
Proof.
  induction l as [|y l IH]; simpl; [reflexivity|].
  destruct (leb x y); [reflexivity|].
  rewrite IH. apply perm_swap.
Qed.

Lemma sort_perm (l : list R) : Permutation (Polars.sort leb l) l.
Proof.
  induction l as [|x l IH]; simpl; [constructor|].
  unfold Polars.sort in *. simpl. rewrite insert_perm. now constructor.
Qed.

Lemma insert_sorted (x : R) (l : list R) :
  StronglySorted (fun a b => leb a b = true) l ->
  StronglySorted (fun a b => leb a b = true) (Polars.insert leb x l).
Proof.
  induction 1 as [|y l Hs IH Hall]; simpl.
  - repeat constructor.
  - destruct (leb x y) eqn:Hxy.
    + constructor; [constructor; assumption|].
      constructor; [assumption|].
      eapply Forall_impl; [|exact Hall]. intros z Hz. eauto.
    + constructor; [assumption|].
      assert (Hyx : leb y x = true) by (destruct (leb_total x y); congruence).
      eapply Permutation_Forall; [symmetry; apply insert_perm|].
      constructor; assumption.
Qed.

Lemma sort_sorted (l : list R) :
  StronglySorted (fun a b => leb a b = true) (Polars.sort leb l).
Proof.
  induction l as [|x l IH]; [constructor|].
  unfold Polars.sort in *. simpl. now apply insert_sorted.
Qed.

End SortFacts.

Section GroupFacts.
Context `{Runtime} {K R : Type}.
Variable eqb : K -> K -> bool.
Hypothesis eqb_eq : forall a b, eqb a b = true <-> a = b.
Variable key : R -> K.

Lemma distinct_In (l : list K) (k : K) : In k (Polars.distinct eqb l) <-> In k l.
Proof.
  induction l as [|x l IH]; simpl; [reflexivity|].
  rewrite filter_In, IH, negb_true_iff. split.
  - intuition.
  - intros [->|Hk]; [auto|].
    destruct (eqb k x) eqn:E; [left; symmetry; now apply eqb_eq | auto].
Qed.

Lemma distinct_NoDup (l : list K) : NoDup (Polars.distinct eqb l).
Proof.
  induction l as [|x l IH]; simpl; constructor.
  - rewrite filter_In, negb_true_iff. intros (_ & E).
    assert (eqb x x = true) by now apply eqb_eq. congruence.
  - now apply NoDup_filter.
Qed.

Lemma group_by_In (df : list R) (k : K) (g : list R) :
  In (k, g) (Polars.group_by eqb key df) <->
  (exists r, In r df /\ key r = k) /\
  g = List.filter (fun r => eqb (key r) k) df.
Proof.
  unfold Polars.group_by. split.
  - intros Hin. apply (Permutation_in _ (group_order_perm _ _)) in Hin.
    apply in_map_iff in Hin as (k' & [= <- <-] & Hk).
    apply distinct_In, in_map_iff in Hk as (r & <- & Hr). eauto.
  - intros ((r & Hr & <-) & ->).
    apply (Permutation_in _ (Permutation_sym (group_order_perm _ _))).
    apply in_map_iff. exists (key r). split; [reflexivity|].
    apply distinct_In, in_map. assumption.
Qed.

Lemma group_by_keys_NoDup (df : list R) :
  NoDup (map fst (Polars.group_by eqb key df)).
Proof.
  unfold Polars.group_by.
  eapply Permutation_NoDup.
  - apply Permutation_map. symmetry. apply group_order_perm.
  - rewrite map_map. simpl. rewrite map_id. apply distinct_NoDup.
Qed.
End GroupFacts.

(* ------------------------------------------------------------------ *)
(** ** Facts about [_read_csv] *)

Section LoadFacts.
Context `{Runtime}.
Import DataProcessor.

Lemma drop_nulls_In (scan : list CsvRow) (r : CsvRow) :
  In r (drop_nulls scan) <-> In r scan /\ no_null r = true.
Proof. unfold drop_nulls. apply filter_In. Qed.

Lemma no_null_InvoiceDate (r : CsvRow) :
  no_null r = true -> exists s, InvoiceDate r = Some s.
Proof.
  unfold no_null. rewrite !andb_true_iff.
  destruct (InvoiceDate r); simpl; [eauto | intuition discriminate].
Qed.

Lemma dates_df_In (invoice_dates : list (option string)) (d : DateRow) :
  In d (dates_df invoice_dates) <->
  In (dates_InvoiceDate d) invoice_dates
  /\ dates_DateTime d = option_map Py.datetime_to_us (parse_date (dates_InvoiceDate d))
  /\ dates_Date d
     = option_map (fun d => Py.date_to_days (Py.date_of d))
                  (parse_date (dates_InvoiceDate d)).
Proof.
  unfold dates_df. rewrite in_map_iff. split.
  - intros (val & <- & Hval). simpl. auto.
  - intros (Hin & Hdt & Hd). exists (dates_InvoiceDate d). split; [|assumption].
    destruct d; simpl in *. subst. reflexivity.
Qed.

(** Every row of the base table is a retained input row with the parse
    of its own timestamp and its own revenue attached. *)
Lemma read_csv_In (scan : list CsvRow) (row : Row) :
  In row (_read_csv scan) ->
  In (csv row) (drop_nulls scan)
  /\ DateTime row = option_map Py.datetime_to_us (parse_date (InvoiceDate row))
  /\ Date row
     = option_map (fun d => Py.date_to_days (Py.date_of d))
                  (parse_date (InvoiceDate row))
  /\ Revenue row = Polars.mul_i64_f64 (Quantity row) (UnitPrice row).
Proof.
  unfold _read_csv. intros Hin.
  apply in_map_iff in Hin as ([l o] & <- & Hj). simpl.
  apply join_left_In in Hj as (Hl & Ho).
  split; [assumption|].
  destruct o as [d|].
  - destruct Ho as (Hd & Hk).
    apply key_match_true in Hk as ([= Hk] & _).
    apply dates_df_In in Hd as (_ & Hdt & Hdate).
    rewrite Hk. auto.
  - exfalso.
    pose proof Hl as Hnn. apply drop_nulls_In in Hnn as (_ & Hnn).
    apply no_null_InvoiceDate in Hnn as (s & Hs).
    specialize
      (Ho (mk_dates (InvoiceDate l)
             (option_map Py.datetime_to_us (parse_date (InvoiceDate l)))
             (option_map (fun d => Py.date_to_days (Py.date_of d))
                         (parse_date (InvoiceDate l))))).
    simpl in Ho. rewrite Hs in Ho. simpl in Ho.
    rewrite String.eqb_refl in Ho. simpl in Ho.
    assert (true = false) by
      (apply Ho; rewrite <- Hs; apply dates_df_In; simpl;
       split; [apply in_map; assumption | auto]).
    discriminate.
Qed.

(** The left join keeps every retained input row. *)
Lemma read_csv_keeps (scan : list CsvRow) (r : CsvRow) :
  In r (drop_nulls scan) -> exists row, In row (_read_csv scan) /\ csv row = r.
Proof.
  intros Hr. unfold _read_csv.
  destruct (join_left_keeps (fun r => [InvoiceDate r]) (fun d => [dates_InvoiceDate d])
              (drop_nulls scan) (dates_df (map InvoiceDate (drop_nulls scan))) r Hr)
    as (o & Ho).
  eexists. split.
  - apply in_map_iff. exists (r, o). split; [reflexivity | exact Ho].
  - reflexivity.
Qed.

Lemma filter_map_length {A B : Type} (g : A -> B) (p : B -> bool) (l : list A) :
  List.length (List.filter p (map g l))
  = List.length (List.filter (fun a => p (g a)) l).
Proof.
  induction l as [|a l IH]; simpl; [reflexivity|].
  destruct (p (g a)); simpl; now rewrite IH.
Qed.

(** The size of the base table: every retained row counts once for each
    retained row that carries the same timestamp text, itself included. *)
Lemma read_csv_length (scan : list CsvRow) :
  List.length (_read_csv scan)
  = list_sum
      (map (fun r : CsvRow =>
              List.length
                (List.filter
                   (fun r' : CsvRow =>
                      Polars.opt_string_eqb (InvoiceDate r') (InvoiceDate r))
                   (drop_nulls scan)))
           (drop_nulls scan)).
Proof.
  unfold _read_csv. rewrite length_map, join_left_length. f_equal.
  apply map_ext_in. intros l Hl.
  unfold dates_df. rewrite map_map, filter_map_length. cbn [dates_InvoiceDate].
  pose proof Hl as Hnn. apply drop_nulls_In in Hnn as (_ & Hnn).
  apply no_null_InvoiceDate in Hnn as (s & Hs).
  assert (E : List.filter
                (fun a : CsvRow => Polars.key_match [InvoiceDate l] [InvoiceDate a])
                (drop_nulls scan)
              = List.filter
                  (fun r' : CsvRow =>
                     Polars.opt_string_eqb (InvoiceDate r') (InvoiceDate l))
                  (drop_nulls scan)).
  { apply filter_ext. intros a. rewrite Hs. simpl.
    destruct (InvoiceDate a) as [t|]; [|reflexivity].
    rewrite andb_true_r. apply String.eqb_sym. }
  rewrite E.
  assert (Hin : In l (List.filter
                        (fun r' : CsvRow =>
                           Polars.opt_string_eqb (InvoiceDate r') (InvoiceDate l))
                        (drop_nulls scan))).
  { apply filter_In. split; [assumption | now apply opt_string_eqb_eq]. }
  set (ms := List.filter
               (fun r' : CsvRow =>
                  Polars.opt_string_eqb (InvoiceDate r') (InvoiceDate l))
               (drop_nulls scan)) in *.
  destruct ms as [|m ms]; [destruct Hin | reflexivity].
Qed.

Lemma read_csv_no_null (scan : list CsvRow) (row : Row) :
  In row (_read_csv scan) -> no_null row = true.
Proof.
  intros Hin. apply read_csv_In in Hin as (Hin & _).
  now apply drop_nulls_In in Hin.
Qed.

Lemma no_null_columns (r : CsvRow) :
  no_null r = true <->
  exists inv stock desc qty date price cust country,
    r = mk_csv (Some inv) (Some stock) (Some desc) (Some qty) (Some date)
               (Some price) (Some cust) (Some country).
Proof.
  split.
  - destruct r as [[?|] [?|] [?|] [?|] [?|] [?|] [?|] [?|]];
      unfold no_null; simpl; try discriminate.
    intros _. repeat eexists.
  - intros (? & ? & ? & ? & ? & ? & ? & ? & ->). reflexivity.
Qed.

Lemma sales_only_sub (df : list Row) (r : Row) :
  In r (sales_only df) -> In r df.
Proof.
  unfold sales_only. intros Hin.
  apply join_anti_In in Hin as (Hin & _).
  now apply polars_filter_In in Hin.
Qed.

Lemma returns_only_In (df : list Row) (k : ReturnKey) :
  In k (returns_only df) <->
  exists r : Row,
    In r df /\ Polars.str_starts_with "C" (InvoiceNo r) = Some true
    /\ k = mk_return (Polars.str_replace_caret "C" (InvoiceNo r))
                     (StockCode r) (CustomerID r).
Proof.
  unfold returns_only. rewrite in_map_iff. split.
  - intros (r & <- & Hr). apply polars_filter_In in Hr. exists r. intuition.
  - intros (r & Hr & Hc & ->). exists r. split; [reflexivity|].
    apply polars_filter_In. auto.
Qed.
End LoadFacts.

(* ------------------------------------------------------------------ *)
(** ** Ingest: nulls, timestamps and the join of the parsed dates *)

Import DataProcessor.

(** C10. After [_read_csv], every row of the base table holds a value in
    each of the eight input columns, [CustomerID] included, because
    [drop_nulls] runs on the scanned file before anything is derived; so
    every row of the sales view and every key of the returns view also
    carries a customer identifier. *)
Theorem C10_no_null_after_load `{Runtime} (scan : list CsvRow) :
  (forall row : Row, In row (_read_csv scan) ->
     In (csv row) scan /\
     exists inv stock desc qty date price cust country,
       csv row = mk_csv (Some inv) (Some stock) (Some desc) (Some qty)
                        (Some date) (Some price) (Some cust) (Some country))
  /\ (forall row : Row, In row (sales_only (_read_csv scan)) ->
        exists cust, CustomerID row = Some cust)
  /\ (forall k, In k (returns_only (_read_csv scan)) ->
        exists cust, ret_CustomerID k = Some cust).
Proof.
  assert (Hbase : forall row : Row, In row (_read_csv scan) ->
            exists cust, CustomerID row = Some cust).
  { intros row Hin. apply read_csv_no_null, no_null_columns in Hin
      as (? & ? & ? & ? & ? & ? & cust & ? & E).
    exists cust. rewrite E. reflexivity. }
  split; [|split].
  - intros row Hin. split.
    + apply read_csv_In in Hin as (Hin & _). now apply drop_nulls_In in Hin.
    + now apply no_null_columns, read_csv_no_null with (scan := scan).
  - intros row Hin. apply Hbase. now apply sales_only_sub.
  - intros k Hin. apply returns_only_In in Hin as (r & Hr & _ & ->). simpl.
    now apply Hbase.
Qed.

(** C7. The timestamp is tried against the two formats in their fixed
    order and the first that parses decides; the [DateTime] and [Date] of
    every row of the base table are those of its own timestamp; and a
    retained row whose timestamp matches neither format stays in the base
    table, with both columns null. *)
Theorem C7_first_format_wins `{Runtime} :
  (forall val : string,
     parse_date (Some val) =
     match strptime val "%m/%d/%Y %H:%M" with
     | Some dt => Some dt
     | None => strptime val "%Y-%m-%d %H:%M:%S"
     end)
  /\ (forall scan (row : Row), In row (_read_csv scan) ->
        DateTime row = option_map Py.datetime_to_us (parse_date (InvoiceDate row))
        /\ Date row = option_map (fun d => Py.date_to_days (Py.date_of d))
                                 (parse_date (InvoiceDate row)))
  /\ (forall scan (r : CsvRow) (val : string),
        In r (drop_nulls scan) -> InvoiceDate r = Some val ->
        strptime val "%m/%d/%Y %H:%M" = None ->
        strptime val "%Y-%m-%d %H:%M:%S" = None ->
        (exists row : Row, In row (_read_csv scan) /\ csv row = r)
        /\ forall row : Row, In row (_read_csv scan) -> csv row = r ->
             DateTime row = None /\ Date row = None).
Proof.
  assert (Hfirst : forall val : string,
            parse_date (Some val) =
            match strptime val "%m/%d/%Y %H:%M" with
            | Some dt => Some dt
            | None => strptime val "%Y-%m-%d %H:%M:%S"
            end).
  { intros val. unfold parse_date, formats. simpl.
    destruct (strptime val "%m/%d/%Y %H:%M"); [reflexivity|].
    destruct (strptime val "%Y-%m-%d %H:%M:%S"); reflexivity. }
  split; [exact Hfirst|]. split.
  - intros scan row Hin. apply read_csv_In in Hin as (_ & Hdt & Hd & _). auto.
  - intros scan r val Hr Hval H1 H2. split; [now apply read_csv_keeps|].
    intros row Hin <-. apply read_csv_In in Hin as (_ & Hdt & Hd & _).
    rewrite Hdt, Hd, Hval, Hfirst, H1, H2. auto.
Qed.

(** The timestamp ["not-a-date"] of [Samples.bad_date] matches no format:
    its row is in the base table with a null [DateTime] and [Date]. *)
Lemma C7_first_format_wins_witness :
  let r := Samples.line "1001" "W1" "Widget" 3 "not-a-date" 2 "42" "France" in
  (exists row : Row, In row (_read_csv Samples.bad_date) /\ csv row = r)
  /\ forall row : Row, In row (_read_csv Samples.bad_date) -> csv row = r ->
       DateTime row = None /\ Date row = None.
Proof.
  intros r.
  apply (proj2 (proj2 (@C7_first_format_wins cpython)) Samples.bad_date r "not-a-date").
  - simpl. left. reflexivity.
  - reflexivity.
  - vm_compute. reflexivity.
  - vm_compute. reflexivity.
Defined.

(** C4. The base table does not hold one row per retained input row:
    each retained row appears once for every retained row that carries
    the same timestamp text, because [dates_df] has one row per input row
    (not one per distinct timestamp) and the left join pairs a row with
    all of them. Two lines of one invoice, stamped with the same minute,
    come out as four rows, each line twice. *)
Theorem C4_same_timestamp_duplicates `{Runtime} :
  (forall scan,
     List.length (_read_csv scan)
     = list_sum
         (map (fun r : CsvRow =>
                 List.length
                   (List.filter
                      (fun r' : CsvRow =>
                         Polars.opt_string_eqb (InvoiceDate r') (InvoiceDate r))
                      (drop_nulls scan)))
              (drop_nulls scan)))
  /\ List.length (drop_nulls Samples.same_minute) = 2%nat
  /\ List.length (_read_csv Samples.same_minute) = 4%nat
  /\ map (fun row : Row => StockCode row) (_read_csv Samples.same_minute)
     = [Some "85123A"; Some "85123A"; Some "71053"; Some "71053"].
Proof.
  split; [exact read_csv_length|]. split; [reflexivity|]. split.
  - rewrite read_csv_length. reflexivity.
  - unfold _read_csv. rewrite map_map. reflexivity.
Qed.

(* ------------------------------------------------------------------ *)
(** ** Returns and sales *)

Lemma substring_all (s : string) : substring 0 (String.length s) s = s.
Proof. induction s as [|c s IH]; simpl; [reflexivity | now rewrite IH]. Qed.

Lemma prefix_C (c : ascii) (s : string) :
  String.prefix "C" (String c s) = if ascii_dec "C" c then true else false.
Proof.
  cbn [String.prefix]. destruct (ascii_dec "C" c); [destruct s|]; reflexivity.
Qed.

Lemma starts_with_C (v : option string) :
  Polars.str_starts_with "C" v = Some true <->
  exists orig, v = Some (String "C" orig).
Proof.
  unfold Polars.str_starts_with. destruct v as [[|c s]|]; cbn [option_map].
  - split; [discriminate | intros (? & [=])].
  - rewrite prefix_C. destruct (ascii_dec "C" c) as [<-|Hne].
    + split; eauto.
    + split; [discriminate | intros (? & [= -> _]); contradiction].
  - split; [discriminate | intros (? & [=])].
Qed.

Lemma not_starts_with_C (v : option string) :
  Polars.not_ (Polars.str_starts_with "C" v) = Some true <->
  (exists s, v = Some s) /\ forall orig, v <> Some (String "C" orig).
Proof.
  unfold Polars.not_, Polars.str_starts_with.
  destruct v as [[|c s]|]; cbn [option_map].
  - split; [intros _; split; [eauto | discriminate] | reflexivity].
  - rewrite prefix_C. destruct (ascii_dec "C" c) as [<-|Hne]; cbn [negb].
    + split; [discriminate | intros (_ & Hno); now destruct (Hno s)].
    + split; [|reflexivity]. intros _. split; [eauto|].
      intros orig [= -> _]. contradiction.
  - split; [discriminate | intros ((? & [=]) & _)].
Qed.

Lemma strip_C (orig : string) :
  Polars.str_replace_caret "C" (Some (String "C" orig)) = Some orig.
Proof.
  unfold Polars.str_replace_caret. cbn [option_map]. rewrite prefix_C.
  destruct (ascii_dec "C" "C") as [_|Hne]; [|contradiction].
  cbn [String.length Nat.sub substring]. rewrite Nat.sub_0_r, substring_all.
  reflexivity.
Qed.

(** C1. On every loaded dataset: the returns view holds exactly the rows
    whose invoice identifier starts with ['C'], keyed by the identifier
    without that marker, the stock code and the customer; a row is in the
    sales view exactly when it is a row of the base table that is not a
    return and whose (invoice, stock code, customer) is the key of no
    return; the sales view keeps or drops whole rows (it is a filter of
    the base table, no quantity is changed); and no row of the sales view
    shares its key with a row of the returns view. *)
Theorem C1_sales_anti_join `{Runtime} (scan : list CsvRow) :
  let df := _read_csv scan in
  (forall k, In k (returns_only df) <->
     exists (r : Row) (orig : string),
       In r df /\ InvoiceNo r = Some (String "C" orig)
       /\ k = mk_return (Some orig) (StockCode r) (CustomerID r))
  /\ (forall r : Row, In r (sales_only df) <->
        In r df
        /\ (forall orig, InvoiceNo r <> Some (String "C" orig))
        /\ ~ exists k, In k (returns_only df)
               /\ (OriginalInvoiceNo k, ret_StockCode k, ret_CustomerID k)
                  = (InvoiceNo r, StockCode r, CustomerID r))
  /\ (exists keep : Row -> bool, sales_only df = List.filter keep df)
  /\ (forall (r : Row) k, In r (sales_only df) -> In k (returns_only df) ->
        (OriginalInvoiceNo k, ret_StockCode k, ret_CustomerID k)
        <> (InvoiceNo r, StockCode r, CustomerID r)).
Proof.
  intros df.
  assert (Hret : forall k, In k (returns_only df) <->
            exists (r : Row) (orig : string),
              In r df /\ InvoiceNo r = Some (String "C" orig)
              /\ k = mk_return (Some orig) (StockCode r) (CustomerID r)).
  { intros k. rewrite returns_only_In. split.
    - intros (r & Hr & Hc & ->). apply starts_with_C in Hc as (orig & Hc).
      exists r, orig. rewrite Hc, strip_C. auto.
    - intros (r & orig & Hr & Hc & ->). exists r.
      rewrite Hc, strip_C. split; [assumption|]. split; [|reflexivity].
      apply starts_with_C. eauto. }
  assert (Hkey : forall (r : Row) k, In r df ->
            Polars.key_match [InvoiceNo r; StockCode r; CustomerID r]
              [OriginalInvoiceNo k; ret_StockCode k; ret_CustomerID k] = true <->
            (OriginalInvoiceNo k, ret_StockCode k, ret_CustomerID k)
            = (InvoiceNo r, StockCode r, CustomerID r)).
  { intros r k Hr. rewrite key_match_true.
    apply read_csv_no_null, no_null_columns in Hr
      as (? & ? & ? & ? & ? & ? & ? & ? & E).
    rewrite E. simpl. split.
    - intros ([= <- <- <-] & _). reflexivity.
    - intros [= -> -> ->]. split; [reflexivity|].
      repeat constructor; discriminate. }
  assert (Hsales : forall r : Row, In r (sales_only df) <->
            In r df
            /\ (forall orig, InvoiceNo r <> Some (String "C" orig))
            /\ ~ exists k, In k (returns_only df)
                   /\ (OriginalInvoiceNo k, ret_StockCode k, ret_CustomerID k)
                      = (InvoiceNo r, StockCode r, CustomerID r)).
  { intros r. unfold sales_only. rewrite join_anti_In, polars_filter_In, not_starts_with_C.
    split.
    - intros ((Hr & _ & Hno) & Hanti). split; [assumption|]. split; [assumption|].
      intros (k & Hk & Heq). apply Hkey in Heq; [|assumption].
      rewrite (Hanti k Hk) in Heq. discriminate.
    - intros (Hr & Hno & Hanti). split.
      + split; [assumption|]. split; [|assumption].
        apply read_csv_no_null, no_null_columns in Hr
          as (inv & ? & ? & ? & ? & ? & ? & ? & E).
        exists inv. rewrite E. reflexivity.
      + intros k Hk. destruct (Polars.key_match _ _) eqn:Hm; [|reflexivity].
        exfalso. apply Hanti. exists k. split; [assumption|]. now apply Hkey. }
  split; [exact Hret|]. split; [exact Hsales|]. split.
  - unfold sales_only, Polars.join_anti, Polars.filter.
    eexists. apply filter_twice.
  - intros r k Hr Hk Heq. apply Hsales in Hr as (_ & _ & Hanti).
    apply Hanti. eauto.
Qed.

(* ------------------------------------------------------------------ *)
(** ** Quantity over time *)

Lemma StronglySorted_weaken {A : Type} (P Q : A -> A -> Prop) (l : list A) :
  (forall a b, P a b -> Q a b) -> StronglySorted P l -> StronglySorted Q l.
Proof.
  intros HPQ. induction 1 as [|x l Hs IH Hall]; constructor; [assumption|].
  eapply Forall_impl; [|exact Hall]. auto.
Qed.

Lemma date_leb_total (a b : option Z) :
  Polars.date_leb a b = true \/ Polars.date_leb b a = true.
Proof. destruct a, b; simpl; auto. rewrite !Z.leb_le. lia. Qed.

Lemma date_leb_trans (a b c : option Z) :
  Polars.date_leb a b = true -> Polars.date_leb b c = true ->
  Polars.date_leb a c = true.
Proof.
  destruct a, b, c; simpl; auto; try discriminate. rewrite !Z.leb_le. lia.
Qed.

Lemma is_in_true `{Runtime} (v : option Z) (values : list (option Z)) :
  Polars.is_in v values = Some true -> In v values.
Proof.
  unfold Polars.is_in. intros Hin.
  assert (Hex : existsb (Polars.opt_Z_eqb v) values = true).
  { destruct v; [congruence|]. destruct nulls_equal; congruence. }
  apply existsb_exists in Hex as (x & Hx & E). apply opt_Z_eqb_eq in E. congruence.
Qed.

Section QuantityFacts.
Context `{Runtime}.

(** The rows of a date and the sum of their quantities. *)
Lemma quantity_by_date_In (rows : list Row) (d : option Z) (q : Z) :
  In (d, q) (quantity_by_date rows) <->
  (exists r : Row, In r rows /\ Date r = d)
  /\ q = Polars.sum_i64
           (map (fun r : Row => Quantity r)
                (List.filter (fun r : Row => Polars.opt_Z_eqb (Date r) d) rows)).
Proof.
  unfold quantity_by_date, Polars.agg. split.
  - intros Hin. apply (Permutation_in _ (sort_perm _ _)) in Hin.
    apply in_map_iff in Hin as ([k g] & [= <- <-] & Hg).
    apply (group_by_In _ opt_Z_eqb_eq) in Hg as (Hex & ->). auto.
  - intros (Hex & ->).
    apply (Permutation_in _ (Permutation_sym (sort_perm _ _))).
    apply in_map_iff.
    exists (d, List.filter (fun r : Row => Polars.opt_Z_eqb (Date r) d) rows).
    split; [reflexivity|]. apply (group_by_In _ opt_Z_eqb_eq). auto.
Qed.

Lemma quantity_by_date_sorted (rows : list Row) :
  StronglySorted (fun a b => Polars.date_leb (fst a) (fst b) = true)
                 (quantity_by_date rows).
Proof.
  unfold quantity_by_date. apply (sort_sorted by_date).
  - intros a b. apply date_leb_total.
  - intros a b c. apply date_leb_trans.
Qed.

Lemma quantity_by_date_NoDup (rows : list Row) :
  NoDup (map fst (quantity_by_date rows)).
Proof.
  unfold quantity_by_date, Polars.agg.
  eapply Permutation_NoDup.
  - apply Permutation_map. symmetry. apply sort_perm.
  - rewrite map_map. simpl. apply (group_by_keys_NoDup _ opt_Z_eqb_eq).
Qed.

(** The filter of [get_country_quantity], row by row. *)
Lemma country_product_filter (rows : list Row) (country product : string) :
  Polars.filter
    (fun r : Row =>
       Polars.and_ (Polars.eq_lit (Country r) country)
                   (Polars.eq_lit (Description r) product))
    rows
  = List.filter
      (fun r : Row =>
         Polars.opt_string_eqb (Country r) (Some country)
         && Polars.opt_string_eqb (Description r) (Some product))
      rows.
Proof.
  apply polars_filter_as_list_filter. intros r _.
  rewrite and_true, andb_true_iff, !eq_lit_true, !opt_string_eqb_eq. reflexivity.
Qed.
End QuantityFacts.

(** C2 (as the code has it). [get_country_quantity] groups the sales-only
    rows of the country and product by [Date] and sums their quantities:
    there is one point per distinct [Date] of those rows, carrying the
    (64-bit) sum of the quantities of the rows of that [Date]; the points
    are in ascending order of [Date] with no [Date] twice. A null [Date] is
    a group like any other and comes first: rows whose timestamp did not
    parse are not excluded, together they make the point whose [Date] is
    null. *)
Theorem C2_quantity_by_date `{Runtime} (df : list Row) (country product : string) :
  let matching :=
    List.filter
      (fun r : Row =>
         Polars.opt_string_eqb (Country r) (Some country)
         && Polars.opt_string_eqb (Description r) (Some product))
      (sales_only df) in
  let res := get_country_quantity df country product in
  (forall d q, In (d, q) res <->
     (exists r : Row, In r matching /\ Date r = d)
     /\ q = Polars.sum_i64
              (map (fun r : Row => Quantity r)
                   (List.filter (fun r : Row => Polars.opt_Z_eqb (Date r) d) matching)))
  /\ StronglySorted
       (fun a b : option Z * Z =>
          match fst a, fst b with
          | None, _ => True
          | Some _, None => False
          | Some x, Some y => x <= y
          end)
       res
  /\ NoDup (map fst res)
  /\ ((exists r : Row, In r matching /\ Date r = None) ->
      exists q, In (None, q) res).
Proof.
  intros matching res.
  assert (Hres : res = quantity_by_date matching).
  { unfold res, get_country_quantity. now rewrite country_product_filter. }
  assert (Hin : forall d q, In (d, q) res <->
     (exists r : Row, In r matching /\ Date r = d)
     /\ q = Polars.sum_i64
              (map (fun r : Row => Quantity r)
                   (List.filter (fun r : Row => Polars.opt_Z_eqb (Date r) d) matching))).
  { intros d q. rewrite Hres. apply quantity_by_date_In. }
  split; [exact Hin|]. split; [|split].
  - rewrite Hres.
    eapply StronglySorted_weaken; [|apply quantity_by_date_sorted].
    intros [[x|] ?] [[y|] ?]; simpl; auto; try discriminate.
    apply Z.leb_le.
  - rewrite Hres. apply quantity_by_date_NoDup.
  - intros Hex. eexists. apply Hin. split; [exact Hex | reflexivity].
Qed.

(** C2 as stated fails: the first row of [Samples.bad_date] is a sale
    whose timestamp ["not-a-date"] matches no format; its [Date] is null
    and it makes the first point of the series, ahead of the point of
    2010-12-01 (day 14944). *)
Lemma C2_null_date_is_a_point :
  parse_date (Some "not-a-date") = None
  /\ get_country_quantity (_read_csv Samples.bad_date) "France" "Widget"
     = [(None, 3); (Some 14944, 2)]
  /\ ~ (forall d q,
          In (d, q) (get_country_quantity (_read_csv Samples.bad_date) "France" "Widget") ->
          d <> None).
Proof.
  split; [vm_compute; reflexivity|]. split; [vm_compute; reflexivity|].
  intros Hno. apply (Hno None 3); [|reflexivity].
  vm_compute. left. reflexivity.
Qed.

(** C6. Every date of [get_global_quantity] is a date of
    [get_country_quantity] for the same country and product, and each
    point of the global series sums the quantities of sales-only rows of
    that date and product whose country is another one. *)
Theorem C6_global_dates_subset `{Runtime} (df : list Row) (country product : string) :
  (forall d, In d (map fst (get_global_quantity df country product)) ->
             In d (map fst (get_country_quantity df country product)))
  /\ (forall d q, In (d, q) (get_global_quantity df country product) ->
        exists g : list Row,
          g <> []
          /\ q = Polars.sum_i64 (map (fun r : Row => Quantity r) g)
          /\ forall r : Row, In r g ->
               In r (sales_only df) /\ Date r = d
               /\ Description r = Some product
               /\ exists c, Country r = Some c /\ c <> country).
Proof.
  assert (Hrow : forall r : Row,
            In r (Polars.filter
                    (fun r : Row =>
                       Polars.and_
                         (Polars.and_ (Polars.ne_lit (Country r) country)
                                      (Polars.eq_lit (Description r) product))
                         (Polars.is_in (Date r)
                            (map fst (get_country_quantity df country product))))
                    (sales_only df)) ->
            In r (sales_only df)
            /\ In (Date r) (map fst (get_country_quantity df country product))
            /\ Description r = Some product
            /\ exists c, Country r = Some c /\ c <> country).
  { intros r Hr. apply polars_filter_In in Hr as (Hr & Hp).
    apply and_true in Hp as (Hp & Hdate). apply and_true in Hp as (Hc & Hd).
    apply is_in_true in Hdate. apply eq_lit_true in Hd. apply ne_lit_true in Hc.
    auto. }
  split.
  - intros d Hd. apply in_map_iff in Hd as ([d' q] & <- & Hin). simpl.
    unfold get_global_quantity in Hin.
    apply quantity_by_date_In in Hin as ((r & Hr & <-) & _).
    now apply Hrow in Hr.
  - intros d q Hin. unfold get_global_quantity in Hin.
    apply quantity_by_date_In in Hin as ((r0 & Hr0 & Hd0) & ->).
    eexists. split; [|split; [reflexivity|]].
    + intros Hnil.
      assert (Hin : In r0 []); [|destruct Hin].
      rewrite <- Hnil. apply filter_In. split; [exact Hr0|].
      now apply opt_Z_eqb_eq.
    + intros r Hr. apply filter_In in Hr as (Hr & Hd).
      apply opt_Z_eqb_eq in Hd. apply Hrow in Hr. intuition.
Qed.

(* ------------------------------------------------------------------ *)
(** ** Revenue per article *)



Lemma firstn_In {A : Type} (n : nat) (l : list A) (x : A) :
  In x (firstn n l) -> In x l.
Proof. intros Hx. rewrite <- (firstn_skipn n l). apply in_or_app. auto. Qed.



(* ------------------------------------------------------------------ *)
(** ** Revenue share *)

Lemma digit_char_is_digit (d : Z) :
  0 <= d < 10 -> Strptime.is_digit (Py.digit_char d) = true.
Proof.
  intros Hd.
  assert (E : d = 0 \/ d = 1 \/ d = 2 \/ d = 3 \/ d = 4 \/ d = 5 \/ d = 6
              \/ d = 7 \/ d = 8 \/ d = 9) by lia.
  repeat (destruct E as [->|E]; [reflexivity|]). subst. reflexivity.
Qed.

Lemma digit_char_value (d : Z) :
  0 <= d < 10 -> Z.of_nat (nat_of_ascii (Py.digit_char d) - 48) = d.
Proof.
  intros Hd.
  assert (E : d = 0 \/ d = 1 \/ d = 2 \/ d = 3 \/ d = 4 \/ d = 5 \/ d = 6
              \/ d = 7 \/ d = 8 \/ d = 9) by lia.
  repeat (destruct E as [->|E]; [reflexivity|]). subst. reflexivity.
Qed.

Lemma list_ascii_app (a b : string) :
  list_ascii_of_string (a ++ b)
  = (list_ascii_of_string a ++ list_ascii_of_string b)%list.
Proof. induction a as [|c a IH]; simpl; [reflexivity | now rewrite IH]. Qed.

Lemma append_String (w : string) (c : ascii) (acc : string) :
  w ++ String c acc = (w ++ String c EmptyString) ++ acc.
Proof. induction w as [|x w IH]; simpl; [reflexivity | now rewrite IH]. Qed.

Lemma length_append_one (w : string) (c : ascii) :
  String.length (w ++ String c EmptyString) = S (String.length w).
Proof. induction w as [|x w IH]; simpl; [reflexivity | now rewrite IH]. Qed.

(** Reading back a digit, as [int] does. *)
Lemma int_of_digit (d : Z) (rest : string) (a : Z) :
  0 <= d < 10 ->
  Strptime.int_of (String (Py.digit_char d) rest) a = Strptime.int_of rest (a * 10 + d).
Proof.
  intros Hd. cbn [Strptime.int_of].
  now rewrite digit_char_is_digit, digit_char_value.
Qed.

(** The digits that [digits_fuel] writes are those of the number: read
    back in front of any text, they give the number. *)
Lemma digits_fuel_spec (fuel : nat) (n : Z) (acc : string) :
  0 <= n < 10 ^ Z.of_nat (S fuel) ->
  exists w,
    Py.digits_fuel (S fuel) n acc = w ++ acc
    /\ w <> EmptyString
    /\ (forall c, In c (list_ascii_of_string w) -> Strptime.is_digit c = true)
    /\ forall rest a,
         Strptime.int_of (w ++ rest) a
         = Strptime.int_of rest (a * 10 ^ Z.of_nat (String.length w) + n).
Proof.
  revert n acc. induction fuel as [|fuel IH]; intros n acc Hn.
  - exists (String (Py.digit_char (n mod 10)) EmptyString).
    assert (Hsmall : n mod 10 = n) by (apply Z.mod_small; simpl in Hn; lia).
    split; [|split; [|split]].
    + simpl. destruct (n / 10 =? 0); reflexivity.
    + discriminate.
    + intros c [<-|[]]. apply digit_char_is_digit, Z.mod_pos_bound. lia.
    + intros rest a. cbn [append String.length].
      rewrite int_of_digit by (apply Z.mod_pos_bound; lia).
      f_equal. rewrite Hsmall. lia.
  - change (Py.digits_fuel (S (S fuel)) n acc)
      with (if n / 10 =? 0 then String (Py.digit_char (n mod 10)) acc
            else Py.digits_fuel (S fuel) (n / 10) (String (Py.digit_char (n mod 10)) acc)).
    pose proof (Z.mod_pos_bound n 10 ltac:(lia)) as Hm.
    pose proof (Z.div_mod n 10 ltac:(lia)) as Hdm.
    destruct (n / 10 =? 0) eqn:E.
    + apply Z.eqb_eq in E.
      exists (String (Py.digit_char (n mod 10)) EmptyString).
      split; [reflexivity|]. split; [discriminate|]. split.
      * intros c [<-|[]]. now apply digit_char_is_digit.
      * intros rest a. cbn [append String.length].
        rewrite int_of_digit by assumption. f_equal. lia.
    + destruct (IH (n / 10) (String (Py.digit_char (n mod 10)) acc))
        as (w & Hw & Hne & Hdig & Hval).
      { split; [apply Z.div_pos; lia|].
        apply Z.div_lt_upper_bound; [lia|].
        replace (10 * 10 ^ Z.of_nat (S fuel)) with (10 ^ Z.of_nat (S (S fuel)));
          [lia|].
        rewrite (Nat2Z.inj_succ (S fuel)), Z.pow_succ_r by lia. reflexivity. }
      exists (w ++ String (Py.digit_char (n mod 10)) EmptyString).
      split; [|split; [|split]].
      * rewrite Hw. apply append_String.
      * destruct w; [contradiction | discriminate].
      * intros c Hc. rewrite list_ascii_app in Hc.
        apply in_app_or in Hc as [Hc|[<-|[]]]; [now apply Hdig|].
        now apply digit_char_is_digit.
      * intros rest a. rewrite <- append_String, Hval.
        rewrite int_of_digit by assumption. f_equal.
        rewrite length_append_one, Nat2Z.inj_succ, Z.pow_succ_r by lia. lia.
Qed.

Lemma str_int_spec (n : Z) :
  0 <= n ->
  Py.str_int n <> EmptyString
  /\ (forall c, In c (list_ascii_of_string (Py.str_int n)) -> Strptime.is_digit c = true)
  /\ Strptime.int_of (Py.str_int n) 0 = n.
Proof.
  intros Hn. unfold Py.str_int.
  destruct (digits_fuel_spec (Z.to_nat (Z.log2 n)) n EmptyString)
    as (w & Hw & Hne & Hdig & Hval).
  - split; [assumption|].
    rewrite Nat2Z.inj_succ, Z2Nat.id by apply Z.log2_nonneg.
    destruct (Z.eq_dec n 0) as [->|Hpos]; [reflexivity|].
    destruct (Z.log2_spec n ltac:(lia)) as (_ & Hlt).
    eapply Z.lt_le_trans; [exact Hlt|].
    apply Z.pow_le_mono_l. lia.
  - assert (E : w ++ EmptyString = w)
      by (clear; induction w as [|c w IH]; simpl; congruence).
    rewrite Hw, E. split; [assumption|]. split; [assumption|].
    specialize (Hval EmptyString 0). rewrite E in Hval. rewrite Hval. simpl. lia.
Qed.

Lemma round_half_even_close (q : Q) :
  (inject_Z (Py.round_half_even q) - q <= 1 # 2)%Q
  /\ (q - inject_Z (Py.round_half_even q) <= 1 # 2)%Q.
Proof.
  unfold Py.round_half_even.
  pose proof (Qfloor_le q) as Hlo. pose proof (Qlt_floor q) as Hhi.
  rewrite inject_Z_plus in Hhi. change (inject_Z 1) with 1%Q in Hhi.
  destruct (Qcompare (q - inject_Z (Qfloor q)) (1 # 2)) eqn:E.
  - apply Qeq_alt in E.
    destruct (Z.even (Qfloor q)); rewrite ?inject_Z_plus;
      change (inject_Z 1) with 1%Q;
      generalize dependent (inject_Z (Qfloor q)); intros f ? ? ?; split; lra.
  - apply Qlt_alt in E.
    generalize dependent (inject_Z (Qfloor q)); intros f ? ? ?; split; lra.
  - apply Qgt_alt in E. rewrite inject_Z_plus. change (inject_Z 1) with 1%Q.
    generalize dependent (inject_Z (Qfloor q)); intros f ? ? ?; split; lra.
Qed.

Lemma round_half_even_nonneg (q : Q) :
  (0 <= q)%Q -> 0 <= Py.round_half_even q.
Proof.
  intros Hq. unfold Py.round_half_even.
  assert (Hf : 0 <= Qfloor q).
  { change 0 with (Qfloor 0). now apply Qfloor_resp_le. }
  destruct (Qcompare _ _); [destruct (Z.even _)| |]; lia.
Qed.

Lemma pow2_Qpower (k : Z) : (Py.pow2 k == 2 ^ k)%Q.
Proof.
  unfold Py.pow2. destruct (0 <=? k) eqn:E.
  - apply Z.leb_le in E. now apply (Zpower_Qpower 2).
  - apply Z.leb_gt in E.
    assert (Hpos : 0 < 2 ^ (- k)) by (apply Z.pow_pos_nonneg; lia).
    replace k with (- (- k)) at 2 by lia.
    rewrite Qpower_opp, <- (Zpower_Qpower 2) by lia.
    destruct (2 ^ (- k)) as [|p|p] eqn:Ep; try lia. reflexivity.
Qed.

Lemma pow2_pos (k : Z) : (0 < Py.pow2 k)%Q.
Proof. rewrite pow2_Qpower. apply Qpower_0_lt. reflexivity. Qed.

Lemma pow2_add (a b : Z) : (Py.pow2 (a + b) == Py.pow2 a * Py.pow2 b)%Q.
Proof. rewrite !pow2_Qpower. apply Qpower_plus. discriminate. Qed.

Lemma pow2_inv (k : Z) : (Py.pow2 (- k) * Py.pow2 k == 1)%Q.
Proof. rewrite <- pow2_add. replace (- k + k) with 0 by lia. reflexivity. Qed.

(** Half a unit in the last place is at most [2 ** -53] of the value, or
    half the least subnormal. *)
Lemma ulp_exponent_bound (q : Q) :
  (0 <= q)%Q ->
  (Py.pow2 (Py.ulp_exponent q) * (1 # 2)
   <= q * Py.pow2 (- 53) + Py.pow2 (- 1075))%Q.
Proof.
  intros Hnn.
  assert (Hsub : (Py.pow2 (- 1074) * (1 # 2) == Py.pow2 (- 1075))%Q).
  { replace (- 1075) with (- 1074 + - 1) by lia. rewrite pow2_add. reflexivity. }
  assert (Hcase : forall e, (Py.pow2 e <= q)%Q ->
            (Py.pow2 (Z.max (e - 52) (- 1074)) * (1 # 2)
             <= q * Py.pow2 (- 53) + Py.pow2 (- 1075))%Q).
  { intros e He. pose proof (pow2_pos (- 1075)) as Hd.
    pose proof (pow2_pos (- 53)) as H53.
    destruct (Z.max_spec (e - 52) (- 1074)) as [(_ & ->)|(_ & ->)].
    - rewrite Hsub.
      assert (0 <= q * Py.pow2 (- 53))%Q.
      { apply Qmult_le_0_compat; [|now apply Qlt_le_weak].
        eapply Qle_trans; [|exact He]. apply Qlt_le_weak, pow2_pos. }
      lra.
    - replace (e - 52) with (e + - 52) by lia. rewrite pow2_add.
      assert (E : (Py.pow2 (- 52) * (1 # 2) == Py.pow2 (- 53))%Q).
      { replace (- 53) with (- 52 + - 1) by lia. rewrite pow2_add. reflexivity. }
      rewrite <- Qmult_assoc, E.
      apply (Qmult_le_compat_r _ _ (Py.pow2 (- 53))) in He;
        [|now apply Qlt_le_weak].
      lra. }
  unfold Py.ulp_exponent.
  set (e0 := Z.log2 (Qnum q) - Z.log2 (Z.pos (Qden q))).
  destruct (Qle_bool (Py.pow2 e0) q) eqn:E1.
  - apply Hcase. now apply Qle_bool_iff.
  - destruct (Qle_bool (Py.pow2 (e0 - 1)) q) eqn:E2.
    + replace (e0 - 53) with (e0 - 1 - 52) by lia.
      apply Hcase. now apply Qle_bool_iff.
    + rewrite Hsub.
      assert (Hq : (0 <= q * Py.pow2 (- 53))%Q).
      { apply Qmult_le_0_compat; [assumption | apply Qlt_le_weak, pow2_pos]. }
      pose proof (pow2_pos (- 1075)). lra.
Qed.

Lemma pow2_scaled (q : Q) (u : Z) :
  (q * Py.pow2 (- u) * Py.pow2 u == q)%Q.
Proof. rewrite <- Qmult_assoc, pow2_inv. ring. Qed.

(** Rounding to [Float64]: the result is within [2 ** -53] of the value,
    relatively, or within half the least subnormal; past the range the
    value was at least about [2 ** 1024]. *)
Lemma round64_mag_spec (q : Q) :
  (0 <= q)%Q ->
  match Py.round64_mag q with
  | Some r =>
      (0 <= r)%Q
      /\ (r - q <= q * Py.pow2 (- 53) + Py.pow2 (- 1075))%Q
      /\ (q - r <= q * Py.pow2 (- 53) + Py.pow2 (- 1075))%Q
  | None => (Py.pow2 1024 <= q + q * Py.pow2 (- 53) + Py.pow2 (- 1075))%Q
  end.
Proof.
  intros Hq. unfold Py.round64_mag.
  pose proof (pow2_pos (- 53)) as H53. pose proof (pow2_pos (- 1075)) as Hd.
  assert (Hqe : (0 <= q * Py.pow2 (- 53))%Q).
  { apply Qmult_le_0_compat; [assumption | now apply Qlt_le_weak]. }
  destruct (Qle_bool q 0) eqn:E0.
  - apply Qle_bool_iff in E0. repeat split; lra.
  - set (u := Py.ulp_exponent q).
    pose proof (ulp_exponent_bound q Hq) as Hu. fold u in Hu.
    pose proof (pow2_pos u) as Hp. pose proof (pow2_pos (- u)) as Hpi.
    set (x := (q * Py.pow2 (- u))%Q).
    pose proof (round_half_even_close x) as [Hup Hdn].
    assert (Hx : (0 <= x)%Q).
    { apply Qmult_le_0_compat; [assumption | now apply Qlt_le_weak]. }
    pose proof (round_half_even_nonneg x Hx) as Hm.
    set (m := Py.round_half_even x) in *.
    assert (Hxq : (x * Py.pow2 u == q)%Q) by apply pow2_scaled.
    assert (H1 : ((inject_Z m - x) * Py.pow2 u <= (1 # 2) * Py.pow2 u)%Q).
    { apply Qmult_le_compat_r; [assumption | now apply Qlt_le_weak]. }
    assert (H2 : ((x - inject_Z m) * Py.pow2 u <= (1 # 2) * Py.pow2 u)%Q).
    { apply Qmult_le_compat_r; [assumption | now apply Qlt_le_weak]. }
    assert (H3 : ((inject_Z m - x) * Py.pow2 u == inject_Z m * Py.pow2 u - q)%Q).
    { transitivity (inject_Z m * Py.pow2 u - x * Py.pow2 u)%Q;
        [ring | now rewrite Hxq]. }
    assert (H4 : ((x - inject_Z m) * Py.pow2 u == q - inject_Z m * Py.pow2 u)%Q).
    { transitivity (x * Py.pow2 u - inject_Z m * Py.pow2 u)%Q;
        [ring | now rewrite Hxq]. }
    assert (Hr : (0 <= inject_Z m * Py.pow2 u)%Q).
    { apply Qmult_le_0_compat; [|now apply Qlt_le_weak].
      change 0%Q with (inject_Z 0). rewrite <- Zle_Qle. exact Hm. }
    rewrite H3 in H1. rewrite H4 in H2.
    destruct (Qle_bool (Py.pow2 1024) (Qred (inject_Z m * Py.pow2 u))) eqn:E.
    + apply Qle_bool_iff in E. rewrite Qred_correct in E. lra.
    + rewrite !Qred_correct. repeat split; lra.
Qed.

Lemma pow2_small_facts :
  (Py.pow2 (- 53) == 1 # 9007199254740992)%Q
  /\ (Py.pow2 (- 51) == 1 # 2251799813685248)%Q
  /\ (Py.pow2 1024 == 256 * Py.pow2 1016)%Q
  /\ (Py.pow2 (- 1068) == 128 * Py.pow2 (- 1075))%Q
  /\ (Py.pow2 (- 1075) <= 1)%Q
  /\ (1 <= Py.pow2 1016)%Q.
Proof.
  refine (conj _ (conj _ (conj _ (conj _ (conj _ _))))).
  - reflexivity.
  - reflexivity.
  - replace 1024 with (8 + 1016) by lia. now rewrite pow2_add.
  - replace (- 1068) with (7 + - 1075) by lia. now rewrite pow2_add.
  - rewrite pow2_Qpower. replace (- 1075) with (- (1075)) by lia.
    rewrite Qpower_opp.
    apply Qle_shift_inv_r; [apply Qpower_0_lt; reflexivity|].
    rewrite Qmult_1_l. apply Qpower_1_le; [discriminate|lia].
  - rewrite pow2_Qpower. apply Qpower_1_le; [discriminate|lia].
Qed.

(** The float share and its text. Past the range of [Float64] (which
    takes a quotient of at least [2 ** 1016]) the share is an infinity,
    written [inf]. Otherwise it is within the rounding of the two float
    operations of the exact quotient times 100, and its text is the
    hundredths nearest to it, ties to even: digits, a point and the last
    two digits. *)
Lemma share_text (s : bool) (ratio : Q) :
  (0 <= ratio)%Q ->
  let sign := if s then "-" else EmptyString in
  match Py.float_mul (Py.round_signed s ratio) 100 with
  | Py.Infinite s' =>
      s' = s
      /\ Py.format_2f (Py.Infinite s') = sign ++ "inf"
      /\ (Py.pow2 1016 <= ratio)%Q
  | Py.Finite s' share =>
      s' = s
      /\ (0 <= share)%Q
      /\ (Qabs (share - ratio * 100)
          <= ratio * 100 * Py.pow2 (- 51) + Py.pow2 (- 1068))%Q
      /\ let n := Py.round_half_even (share * 100) in
         exists whole : string,
           Py.format_2f (Py.Finite s' share)
           = sign ++ whole ++ "."
               ++ String (Py.digit_char (n mod 100 / 10))
                    (String (Py.digit_char (n mod 10)) EmptyString)
           /\ whole <> EmptyString
           /\ (forall c, In c (list_ascii_of_string whole) ->
                         Strptime.is_digit c = true)
           /\ Strptime.int_of whole 0 = n / 100
  end.
Proof.
  intros Hr sign.
  destruct pow2_small_facts as (E53 & E51 & E1024 & E1068 & Hd1 & H16).
  pose proof (pow2_pos (- 1075)) as Hd.
  pose proof (round64_mag_spec ratio Hr) as H1.
  unfold Py.round_signed.
  destruct (Py.round64_mag ratio) as [r1|] eqn:R1; cbn [Py.float_mul].
  - destruct H1 as (Hr1 & Hup1 & Hdn1).
    assert (Hr100 : (0 <= r1 * 100)%Q) by lra.
    pose proof (round64_mag_spec (r1 * 100) Hr100) as H2.
    unfold Py.round_signed.
    destruct (Py.round64_mag (r1 * 100)) as [m|] eqn:R2.
    + destruct H2 as (Hm & Hup2 & Hdn2).
      assert (Hm100 : (0 <= m * 100)%Q) by lra.
      pose proof (round_half_even_nonneg (m * 100) Hm100) as Hn.
      split; [reflexivity|]. split; [exact Hm|]. split.
      * apply Qabs_Qle_condition. rewrite E53 in *. rewrite E51, E1068.
        split; lra.
      * cbv zeta. set (n := Py.round_half_even (m * 100)) in *.
        assert (Hwhole : 0 <= n / 100) by (apply Z.div_pos; lia).
        destruct (str_int_spec (n / 100) Hwhole) as (Hne & Hdig & Hval).
        exists (Py.str_int (n / 100)). repeat split; assumption.
    + split; [reflexivity|]. split; [reflexivity|].
      rewrite E53, E1024 in *. lra.
  - split; [reflexivity|]. split; [reflexivity|].
    rewrite E53, E1024 in *. lra.
Qed.

Lemma country_revenue_rows `{Runtime} (df : list Row) (country : string) :
  country_revenue df country
  = Polars.sum_f64
      (map Revenue
         (List.filter
            (fun r : Row => Polars.opt_string_eqb (Country r) (Some country)) df)).
Proof.
  unfold country_revenue. f_equal. f_equal.
  apply polars_filter_as_list_filter. intros r _.
  now rewrite eq_lit_true, opt_string_eqb_eq.
Qed.

Lemma total_revenue_nil `{Runtime} : total_revenue [] = 0%Q.
Proof. unfold total_revenue, Polars.sum_f64. apply float_sum_nil. Qed.

Lemma ratio_nonneg (a b : Q) : (0 <= Qabs a / Qabs b)%Q.
Proof.
  pose proof (Qabs_nonneg a) as Ha. pose proof (Qabs_nonneg b) as Hb.
  destruct (Qeq_dec (Qabs b) 0) as [E|E].
  - unfold Qdiv. setoid_replace (/ Qabs b)%Q with 0%Q.
    + rewrite Qmult_0_r. apply Qle_refl.
    + rewrite E. reflexivity.
  - apply Qle_shift_div_l; [|now rewrite Qmult_0_l].
    apply Qle_lteq in Hb. destruct Hb as [Hb|Hb]; [assumption|].
    now symmetry in Hb.
Qed.

(** C8 (as the code has it). With a total revenue that is not zero,
    [total_revenue_vs_country] returns two rows: the total, the [Float64]
    sum of Revenue over every row of the base table (returns and all
    other rows alike, not the sales view), and the revenue of the
    country, the sum over every row of that country, with the text of
    the float share [country_revenue / total_revenue * 100]. The share is
    negative when exactly one of the two revenues is. When it is finite,
    it is within the rounding of the two float operations of the exact
    quotient times 100, and the text is the sign, digits, a point and
    exactly two digits: the hundredths nearest to the float, ties to
    even. When the quotient leaves the range of [Float64], which takes a
    quotient of at least [2 ** 1016], the text is [inf] or [-inf]. *)
Theorem C8_revenue_share `{Runtime} (df : list Row) (country : string) :
  Polars.within_float64 (map Revenue df) = true ->
  ~ (total_revenue df == 0)%Q ->
  let total := Polars.sum_f64 (map Revenue df) in
  let crev :=
    Polars.sum_f64
      (map Revenue
         (List.filter
            (fun r : Row => Polars.opt_string_eqb (Country r) (Some country)) df)) in
  let negative := xorb (Py.is_negative crev) (Py.is_negative total) in
  let sign := if negative then "-" else EmptyString in
  let ratio := (Qabs crev / Qabs total)%Q in
  exists pct : string,
    total_revenue_vs_country df country
    = Py.Ok [ mk_share "Total Global Revenue" total EmptyString;
              mk_share country crev pct ]
    /\ match Py.float_mul (Py.round_signed negative ratio) 100 with
       | Py.Infinite _ => pct = sign ++ "inf" /\ (Py.pow2 1016 <= ratio)%Q
       | Py.Finite _ share =>
           (0 <= share)%Q
           /\ (Qabs (share - ratio * 100)
               <= ratio * 100 * Py.pow2 (- 51) + Py.pow2 (- 1068))%Q
           /\ let n := Py.round_half_even (share * 100) in
              exists whole : string,
                pct = sign ++ whole ++ "."
                        ++ String (Py.digit_char (n mod 100 / 10))
                             (String (Py.digit_char (n mod 10)) EmptyString)
                /\ whole <> EmptyString
                /\ (forall c, In c (list_ascii_of_string whole) ->
                              Strptime.is_digit c = true)
                /\ Strptime.int_of whole 0 = n / 100
       end.
Proof.
  intros _ Hnz total crev negative sign ratio.
  exists (Py.format_2f (Py.float_mul (Py.round_signed negative ratio) 100)).
  split.
  - unfold total_revenue_vs_country.
    destruct df as [|r df'].
    + exfalso. apply Hnz. now rewrite total_revenue_nil.
    + rewrite country_revenue_rows. fold crev.
      change (total_revenue (r :: df')) with total in *.
      unfold Py.truediv.
      destruct (Qeq_bool total 0) eqn:E; [|reflexivity].
      apply Qeq_bool_iff in E. contradiction.
  - pose proof (share_text negative ratio (ratio_nonneg crev total)) as Ht.
    cbv zeta in Ht. fold sign in Ht.
    destruct (Py.float_mul (Py.round_signed negative ratio) 100) as [s' share|s'].
    + destruct Ht as (_ & Hs & Hb & Hw). split; [exact Hs|]. split; [exact Hb|].
      exact Hw.
    + destruct Ht as (_ & Ht & Hb). split; assumption.
Qed.

(** Total 24 (the sale of 2 and its return of -2 included), France 6: a
    quarter, the share is the float 25 and its text 25.00. *)
Lemma C8_revenue_share_witness :
  let df := _read_csv Samples.sale_and_return in
  Polars.within_float64 (map Revenue df) = true
  /\ ~ (total_revenue df == 0)%Q
  /\ exists pct : string,
       total_revenue_vs_country df "France"
       = Py.Ok [ mk_share "Total Global Revenue" 24 EmptyString;
                 mk_share "France" 6 pct ]
       /\ exists whole : string,
            pct = EmptyString ++ whole ++ ".00"
            /\ whole <> EmptyString
            /\ (forall c, In c (list_ascii_of_string whole) ->
                          Strptime.is_digit c = true)
            /\ Strptime.int_of whole 0 = 25.
Proof.
  intros df.
  assert (Hin : Polars.within_float64 (map Revenue df) = true)
    by (vm_compute; reflexivity).
  assert (Hnz : ~ (total_revenue df == 0)%Q) by (vm_compute; discriminate).
  split; [exact Hin|]. split; [exact Hnz|].
  destruct (C8_revenue_share df "France" Hin Hnz) as (pct & Heq & Hpct).
  exists pct. split; [exact Heq|].
  vm_compute in Hpct. destruct Hpct as (_ & _ & Hw). exact Hw.
Defined.

(** The same query, evaluated: 24 in total, 6 for France, a share of
    25.00. *)
Lemma share_of_a_quarter :
  total_revenue_vs_country (_read_csv Samples.sale_and_return) "France"
  = Py.Ok [ mk_share "Total Global Revenue" 24 EmptyString;
            mk_share "France" 6 "25.00" ].
Proof. vm_compute. reflexivity. Qed.

(** The share is that of the floats: 23 of 160 is 14.375 exactly, the
    float quotient times 100 lies just below, and the text is 14.37. *)
Lemma share_of_23_in_160 :
  total_revenue_vs_country (_read_csv Samples.share_23_of_160) "France"
  = Py.Ok [ mk_share "Total Global Revenue" 160 EmptyString;
            mk_share "France" 23 "14.37" ].
Proof. vm_compute. reflexivity. Qed.

(** C8 as stated fails: the total is not zero, and the share is not
    written with two decimals. France sells for [2 ** 1000], a return of
    the same amount and a sale of [2 ** -1000] elsewhere leave a total of
    [2 ** -1000]; the quotient passes the range of [Float64] and the text
    is [inf]. *)
Lemma C8_share_without_decimals :
  let df := _read_csv Samples.cancelling_revenues in
  Polars.within_float64 (map Revenue df) = true
  /\ ~ (total_revenue df == 0)%Q
  /\ total_revenue_vs_country df "France"
     = Py.Ok [ mk_share "Total Global Revenue" (Py.pow2 (- 1000)) EmptyString;
               mk_share "France" (Py.pow2 1000) "inf" ].
Proof.
  split; [vm_compute; reflexivity|].
  split; [vm_compute; discriminate|]. vm_compute. reflexivity.
Qed.

(** Added up in another order, the three revenues of that sample give
    [2 ** -1000] again or, where the small one is absorbed first, zero:
    no order of the additions gives a share with two decimals. *)
Lemma cancelling_revenues_in_any_order (l : list Q) :
  let a := Py.pow2 1000 in
  let c := Py.pow2 (- 1000) in
  In l [ [a; - a; c]; [a; c; - a]; [- a; a; c];
         [- a; c; a]; [c; a; - a]; [c; - a; a] ]%Q ->
  (float_sum l == c)%Q \/ (float_sum l == 0)%Q.
Proof.
  intros a c Hl.
  repeat (destruct Hl as [<-|Hl];
          [vm_compute; first [left; reflexivity | right; reflexivity]|]).
  destruct Hl.
Qed.

(** C3 (as the code has it). When the total revenue is zero,
    [total_revenue_vs_country] fails: on a base table with rows the
    division raises Python's [ZeroDivisionError]; on the empty store
    polars' [SchemaError] comes first, at the first [collect]. Nothing in
    the code catches either or turns it into another error. *)
Theorem C3_zero_total_raises `{Runtime} (df : list Row) (country : string) :
  Polars.within_float64 (map Revenue df) = true ->
  (total_revenue df == 0)%Q ->
  total_revenue_vs_country df country
  = Py.Raise match df with
             | [] => Py.SchemaError
             | _ :: _ => Py.ZeroDivisionError
             end
  /\ total_revenue_vs_country df country <> Py.Raise Py.EmptyDatasetError.
Proof.
  intros _ Hz.
  assert (E : total_revenue_vs_country df country
              = Py.Raise match df with
                         | [] => Py.SchemaError
                         | _ :: _ => Py.ZeroDivisionError
                         end).
  { unfold total_revenue_vs_country, Py.truediv.
    destruct df as [|r df']; [reflexivity|].
    apply Qeq_bool_iff in Hz. now rewrite Hz. }
  split; [exact E|]. rewrite E. destruct df; discriminate.
Qed.

Lemma C3_zero_total_raises_witness :
  let df := _read_csv Samples.zero_total in
  Polars.within_float64 (map Revenue df) = true
  /\ (total_revenue df == 0)%Q
  /\ total_revenue_vs_country df "France" = Py.Raise Py.ZeroDivisionError.
Proof.
  intros df.
  assert (Hin : Polars.within_float64 (map Revenue df) = true)
    by (vm_compute; reflexivity).
  assert (Hz : (total_revenue df == 0)%Q) by (vm_compute; reflexivity).
  split; [exact Hin|]. split; [exact Hz|].
  exact (proj1 (C3_zero_total_raises df "France" Hin Hz)).
Defined.

(** C3 as stated fails: a sale of 2.00 and its return of -2.00 sum to a
    total of zero, and the query ends in [ZeroDivisionError], not in
    [EmptyDatasetError]. *)
Lemma C3_not_EmptyDatasetError :
  (total_revenue (_read_csv Samples.zero_total) == 0)%Q
  /\ total_revenue_vs_country (_read_csv Samples.zero_total) "France"
     <> Py.Raise Py.EmptyDatasetError.
Proof.
  split; [vm_compute; reflexivity|]. vm_compute. discriminate.
Qed.

(** The empty store: the query raises before it divides. *)
Lemma share_of_the_empty_store :
  total_revenue_vs_country (_read_csv []) "France" = Py.Raise Py.SchemaError.
Proof. reflexivity. Qed.

(* ------------------------------------------------------------------ *)
(** ** The extended x-axis of the time-series chart *)

Lemma py_min_spec (x : Z) (l : list Z) :
  In (Dashboard.py_min x l) (x :: l)
  /\ Forall (fun y => Dashboard.py_min x l <= y) (x :: l).
Proof.
  unfold Dashboard.py_min. revert x. induction l as [|y l IH]; intros x; simpl.
  - split; [auto | repeat constructor; lia].
  - destruct (IH (Z.min x y)) as (Hin & Hall). split.
    + destruct Hin as [E|Hin]; [|auto]. rewrite <- E.
      destruct (Z.min_spec x y) as [(_ & ->)|(_ & ->)]; auto.
    + inversion Hall as [|m l' Hm Hl]; subst.
      constructor; [lia|]. constructor; [lia | assumption].
Qed.

Lemma py_max_spec (x : Z) (l : list Z) :
  In (Dashboard.py_max x l) (x :: l)
  /\ Forall (fun y => y <= Dashboard.py_max x l) (x :: l).
Proof.
  unfold Dashboard.py_max. revert x. induction l as [|y l IH]; intros x; simpl.
  - split; [auto | repeat constructor; lia].
  - destruct (IH (Z.max x y)) as (Hin & Hall). split.
    + destruct Hin as [E|Hin]; [|auto]. rewrite <- E.
      destruct (Z.max_spec x y) as [(_ & ->)|(_ & ->)]; auto.
    + inversion Hall as [|m l' Hm Hl]; subst.
      constructor; [lia|]. constructor; [lia | assumption].
Qed.

(** [int(days * 0.1)] is the whole part of a tenth of [days], for every
    span of days between two dates. The product is taken exactly here;
    rounding it to a [float] cannot change the whole part, since the
    exact product is never below the integer [days / 10] and stays more
    than a twentieth under the next one. *)
Lemma int_tenth (days : Z) :
  0 <= days < 2 ^ 32 ->
  Dashboard.int_of_float (inject_Z days * Dashboard.float_tenth) = days / 10.
Proof.
  intros Hd. unfold Dashboard.int_of_float, Dashboard.float_tenth. simpl.
  rewrite Z.quot_div_nonneg by lia.
  pose proof (Z.div_mod days 10 ltac:(lia)) as Hdm.
  pose proof (Z.mod_pos_bound days 10 ltac:(lia)) as Hm.
  symmetry.
  apply Z.div_unique with (r := 2 * (days / 10) + (days mod 10) * 3602879701896397);
    lia.
Qed.

Section DashboardFacts.
Context `{Runtime}.

Lemma to_datetime_safe_range (d : option Z) :
  Dashboard.python_date d = true ->
  Py.date_min_days * Py.us_per_day <= Dashboard.to_datetime_safe d
  <= Py.date_max_days * Py.us_per_day.
Proof.
  destruct d as [x|]; simpl.
  - rewrite andb_true_iff, !Z.leb_le.
    unfold Py.us_per_day, Py.date_min_days, Py.date_max_days. lia.
  - intros _. vm_compute. split; discriminate.
Qed.

Lemma quantity_by_date_dates (rows : list Row) (d : option Z) :
  In d (map fst (quantity_by_date rows)) -> exists r : Row, In r rows /\ Date r = d.
Proof.
  intros Hd. apply in_map_iff in Hd as ([d' q] & <- & Hin).
  now apply quantity_by_date_In in Hin as (Hex & _).
Qed.

Lemma country_dates_from_rows (df : list Row) (country product : string) (d : option Z) :
  In d (map fst (get_country_quantity df country product)) ->
  exists r : Row, In r df /\ Date r = d.
Proof.
  unfold get_country_quantity. intros Hd.
  apply quantity_by_date_dates in Hd as (r & Hr & E).
  apply polars_filter_In in Hr as (Hr & _). apply sales_only_sub in Hr. eauto.
Qed.

Lemma global_dates_from_rows (df : list Row) (country product : string) (d : option Z) :
  In d (map fst (get_global_quantity df country product)) ->
  exists r : Row, In r df /\ Date r = d.
Proof.
  unfold get_global_quantity. intros Hd.
  apply quantity_by_date_dates in Hd as (r & Hr & E).
  apply polars_filter_In in Hr as (Hr & _). apply sales_only_sub in Hr. eauto.
Qed.
End DashboardFacts.

(** C9 (as the code has it). With at least one date in the two series,
    and dates that Python's [date] can hold, [first_date] and [last_date]
    are the least and the greatest date of the union of the local and
    global series, and the extended bound is [last_date] plus a whole
    number of days: a tenth of the number of days between [first_date]
    and [last_date], rounded down. When that bound is past
    [datetime.max], the addition raises [OverflowError] and the call
    returns nothing. *)
Theorem C9_extended_date `{Runtime} (df : list Row) (country product : string)
    (today_first today_last : Z) :
  let ts := Dashboard.plot_article_timeseries df country product today_first today_last in
  let all_dates := (Dashboard.country_dates ts ++ Dashboard.global_dates ts)%list in
  all_dates <> [] ->
  forallb (fun r : Row => Dashboard.python_date (Date r)) df = true ->
  exists first last : Z,
    (In first all_dates /\ Forall (fun x => first <= x) all_dates)
    /\ (In last all_dates /\ Forall (fun x => x <= last) all_dates)
    /\ let extended :=
         last + Dashboard.timedelta_days (last - first) / 10 * Py.us_per_day in
       if extended <=? Py.datetime_max_us
       then Dashboard.plot_article_timeseries_outcome
              df country product today_first today_last
            = Py.Ok ts
            /\ Dashboard.first_date ts = first
            /\ Dashboard.extended_date ts = extended
       else Dashboard.plot_article_timeseries_outcome
              df country product today_first today_last
            = Py.Raise Py.OverflowError.
Proof.
  intros ts all_dates Hne Hdf.
  assert (Hrows : forall e, In e all_dates ->
            exists r : Row, In r df /\ Dashboard.to_datetime_safe (Date r) = e).
  { intros e He.
    unfold all_dates, ts, Dashboard.plot_article_timeseries in He.
    cbn [Dashboard.country_dates Dashboard.global_dates] in He.
    apply in_app_or in He as [He|He];
      apply in_map_iff in He as (d & <- & Hd).
    - apply country_dates_from_rows in Hd as (r & Hr & <-). eauto.
    - apply global_dates_from_rows in Hd as (r & Hr & <-). eauto. }
  assert (Hrange : forall e, In e all_dates ->
            Py.date_min_days * Py.us_per_day <= e
            <= Py.date_max_days * Py.us_per_day).
  { intros e He. destruct (Hrows e He) as (r & Hr & <-).
    apply to_datetime_safe_range. rewrite forallb_forall in Hdf. now apply Hdf. }
  assert (Hdf_ne : exists r df', df = r :: df').
  { destruct all_dates as [|e l] eqn:E; [contradiction|].
    destruct (Hrows e (or_introl eq_refl)) as (r & Hr & _).
    destruct df as [|r0 df']; [contradiction | eauto]. }
  assert (Hvals :
    exists first last : Z,
      (In first all_dates /\ Forall (fun x => first <= x) all_dates)
      /\ (In last all_dates /\ Forall (fun x => x <= last) all_dates)
      /\ Dashboard.first_date ts = first
      /\ Dashboard.extended_date ts
         = last + Dashboard.timedelta_days (last - first) / 10 * Py.us_per_day
      /\ 0 <= Dashboard.timedelta_days (last - first) / 10).
  { clear Hrows Hdf_ne.
    unfold ts, Dashboard.plot_article_timeseries.
    cbn [Dashboard.first_date Dashboard.extended_date].
    unfold all_dates, ts, Dashboard.plot_article_timeseries in *.
    cbn [Dashboard.country_dates Dashboard.global_dates] in *.
    destruct (map Dashboard.to_datetime_safe
                (map fst (get_country_quantity df country product))
              ++ map Dashboard.to_datetime_safe
                   (map fst (get_global_quantity df country product)))%list
      as [|x l]; [contradiction|].
    destruct (py_min_spec x l) as (Hmin_in & Hmin).
    destruct (py_max_spec x l) as (Hmax_in & Hmax).
    exists (Dashboard.py_min x l), (Dashboard.py_max x l).
    split; [auto|]. split; [auto|]. split; [reflexivity|].
    pose proof (Hrange _ Hmin_in) as Hlo. pose proof (Hrange _ Hmax_in) as Hhi.
    assert (Hle : Dashboard.py_min x l <= Dashboard.py_max x l).
    { inversion Hmin; subst. inversion Hmax; subst. lia. }
    assert (Hspan : 0 <= Dashboard.timedelta_days
                           (Dashboard.py_max x l - Dashboard.py_min x l) < 2 ^ 32).
    { unfold Dashboard.timedelta_days, Py.us_per_day, Py.date_min_days,
        Py.date_max_days in *. split.
      - apply Z.div_pos; lia.
      - apply Z.div_lt_upper_bound; lia. }
    split.
    - f_equal. f_equal. now apply int_tenth.
    - apply Z.div_pos; lia. }
  destruct Hvals as (first & last & Hfirst & Hlast & Ef & Ee & Hext).
  exists first, last. split; [exact Hfirst|]. split; [exact Hlast|].
  cbv zeta.
  destruct Hdf_ne as (r & df' & ->).
  unfold Dashboard.plot_article_timeseries_outcome. fold ts. rewrite Ee.
  assert (Hlo : Py.date_min_days * Py.us_per_day
                <= last + Dashboard.timedelta_days (last - first) / 10 * Py.us_per_day).
  { pose proof (Hrange last (proj1 Hlast)) as (Hl & _).
    unfold Py.us_per_day in *. lia. }
  apply Z.leb_le in Hlo. rewrite Hlo. cbn [andb].
  destruct (last + Dashboard.timedelta_days (last - first) / 10 * Py.us_per_day
            <=? Py.datetime_max_us); auto.
Qed.

(** Two sales five days apart: the bound is the last date itself. *)
Lemma C9_extended_date_witness :
  let ts := Dashboard.plot_article_timeseries (_read_csv Samples.five_days)
              "France" "Widget" 0 0 in
  let all_dates := (Dashboard.country_dates ts ++ Dashboard.global_dates ts)%list in
  exists first last : Z,
    (In first all_dates /\ Forall (fun x => first <= x) all_dates)
    /\ (In last all_dates /\ Forall (fun x => x <= last) all_dates)
    /\ let extended :=
         last + Dashboard.timedelta_days (last - first) / 10 * Py.us_per_day in
       if extended <=? Py.datetime_max_us
       then Dashboard.plot_article_timeseries_outcome
              (_read_csv Samples.five_days) "France" "Widget" 0 0
            = Py.Ok ts
            /\ Dashboard.first_date ts = first
            /\ Dashboard.extended_date ts = extended
       else Dashboard.plot_article_timeseries_outcome
              (_read_csv Samples.five_days) "France" "Widget" 0 0
            = Py.Raise Py.OverflowError.
Proof.
  apply (@C9_extended_date cpython (_read_csv Samples.five_days) "France" "Widget" 0 0).
  - vm_compute. discriminate.
  - vm_compute. reflexivity.
Defined.

(** C9 as stated fails: with sales on 2011-01-01 and 2011-01-06 the
    bound is 2011-01-06T00:00, while [last_date + 0.1 * (last_date -
    first_date)] is twelve hours later. Times are in microseconds since
    1970. *)
Lemma C9_not_a_tenth_of_the_span :
  let ts := Dashboard.plot_article_timeseries (_read_csv Samples.five_days)
              "France" "Widget" 0 0 in
  let first := 1293840000000000 in
  let last := 1294272000000000 in
  (Dashboard.country_dates ts ++ Dashboard.global_dates ts)%list = [first; last]
  /\ Dashboard.first_date ts = first
  /\ Dashboard.extended_date ts = last
  /\ ~ (inject_Z (Dashboard.extended_date ts)
        == inject_Z last + (1 # 10) * (inject_Z last - inject_Z first))%Q.
Proof.
  vm_compute. repeat split. discriminate.
Qed.

(** The call on the five-day sample returns that frame. *)
Lemma chart_of_five_days :
  Dashboard.plot_article_timeseries_outcome (_read_csv Samples.five_days)
    "France" "Widget" 0 0
  = Py.Ok (Dashboard.plot_article_timeseries (_read_csv Samples.five_days)
             "France" "Widget" 0 0).
Proof. vm_compute. reflexivity. Qed.

(** Sales on 9999-12-21 and 9999-12-31: a tenth of the ten days is one
    day, the bound would be the first day of the year 10000, and the call
    raises [OverflowError]. *)
Lemma chart_past_the_calendar :
  Dashboard.plot_article_timeseries_outcome (_read_csv Samples.end_of_calendar)
    "France" "Widget" 0 0
  = Py.Raise Py.OverflowError.
Proof. vm_compute. reflexivity. Qed.

(* ------------------------------------------------------------------ *)
(** ** Revenue of the loaded rows *)




(** Three at a tenth each: the stored revenue is the float
    0.30000000000000004, not three tenths. *)
Lemma revenue_of_three_tenths :
  Polars.mul_i64_f64 (Some 3) (Some (1 # 10))
  = Some (1351079888211149 # 4503599627370496)
  /\ ~ (1351079888211149 # 4503599627370496 == 3 # 10)%Q.
Proof. split; [vm_compute; reflexivity | vm_compute; discriminate]. Qed.

(* ------------------------------------------------------------------ *)
(** ** The lists of countries and products *)

Lemma ascii_compare_trans (a b c : ascii) (o : comparison) :
  Ascii.compare a b = o -> Ascii.compare b c = o -> Ascii.compare a c = o.
Proof.
  unfold Ascii.compare. intros Hab Hbc.
  destruct o.
  - rewrite N.compare_eq_iff in *. congruence.
  - rewrite N.compare_lt_iff in *. lia.
  - rewrite N.compare_gt_iff in *. lia.
Qed.

Lemma string_compare_lt_trans (a b c : string) :
  String.compare a b = Lt -> String.compare b c = Lt -> String.compare a c = Lt.
Proof.
  revert b c. induction a as [|x a IH]; intros [|y b] [|z c]; simpl;
    try discriminate; auto.
  destruct (Ascii.compare x y) eqn:Hxy; try discriminate;
    destruct (Ascii.compare y z) eqn:Hyz; try discriminate; intros Hab Hbc.
  - apply Ascii.compare_eq_iff in Hxy. apply Ascii.compare_eq_iff in Hyz. subst.
    assert (Ascii.compare z z = Eq) as ->
      by (unfold Ascii.compare; apply N.compare_refl).
    eauto.
  - apply Ascii.compare_eq_iff in Hxy. subst. now rewrite Hyz.
  - apply Ascii.compare_eq_iff in Hyz. subst. now rewrite Hxy.
  - now rewrite (ascii_compare_trans _ _ _ _ Hxy Hyz).
Qed.

Lemma string_leb_trans (a b c : string) :
  String.leb a b = true -> String.leb b c = true -> String.leb a c = true.
Proof.
  unfold String.leb.
  destruct (String.compare a b) eqn:Hab; try discriminate;
    destruct (String.compare b c) eqn:Hbc; try discriminate; intros _ _.
  - apply String.compare_eq_iff in Hab. subst. now rewrite Hbc.
  - apply String.compare_eq_iff in Hab. subst. now rewrite Hbc.
  - apply String.compare_eq_iff in Hbc. subst. now rewrite Hab.
  - now rewrite (string_compare_lt_trans _ _ _ Hab Hbc).
Qed.

Lemma str_leb_total (a b : option string) :
  Polars.str_leb a b = true \/ Polars.str_leb b a = true.
Proof. destruct a, b; simpl; auto. apply String.leb_total. Qed.

Lemma str_leb_trans (a b c : option string) :
  Polars.str_leb a b = true -> Polars.str_leb b c = true ->
  Polars.str_leb a c = true.
Proof.
  destruct a, b, c; simpl; auto; try discriminate. apply string_leb_trans.
Qed.

Lemma str_leb_antisym (a b : option string) :
  Polars.str_leb a b = true -> Polars.str_leb b a = true -> a = b.
Proof.
  destruct a, b; simpl; auto; try discriminate.
  intros Hab Hba. f_equal. now apply String.leb_antisym.
Qed.

(** Two sorted rearrangements of the same values are the same list. *)
Lemma sorted_perm_eq {A : Type} (leb : A -> A -> bool) (l1 l2 : list A) :
  (forall a b, leb a b = true -> leb b a = true -> a = b) ->
  StronglySorted (fun a b => leb a b = true) l1 ->
  StronglySorted (fun a b => leb a b = true) l2 ->
  Permutation l1 l2 -> l1 = l2.
Proof.
  intros Hanti Hs1. revert l2.
  induction Hs1 as [|x l1 Hs1 IH Hx]; intros l2 Hs2 Hp.
  - now apply Permutation_nil in Hp.
  - destruct Hs2 as [|y l2 Hs2 Hy].
    + apply Permutation_sym, Permutation_nil in Hp. discriminate.
    + assert (E : x = y).
      { rewrite Forall_forall in Hx, Hy.
        assert (Hxin : In x (y :: l2))
          by (eapply Permutation_in; [exact Hp | now left]).
        assert (Hyin : In y (x :: l1))
          by (eapply Permutation_in; [symmetry; exact Hp | now left]).
        destruct Hxin as [->|Hxin]; [reflexivity|].
        destruct Hyin as [->|Hyin]; [reflexivity|].
        apply Hanti; auto. }
      subst y. f_equal. apply IH; [assumption|].
      now apply Permutation_cons_inv in Hp.
Qed.

Section ListingFacts.
Context `{Runtime}.

Lemma unique_In (col : list (option string)) (v : option string) :
  In v (Polars.unique col) <-> In v col.
Proof.
  unfold Polars.unique. rewrite <- (distinct_In _ opt_string_eqb_eq col v).
  split; apply Permutation_in;
    [apply group_order_perm | symmetry; apply group_order_perm].
Qed.

Lemma unique_NoDup (col : list (option string)) : NoDup (Polars.unique col).
Proof.
  unfold Polars.unique. eapply Permutation_NoDup.
  - symmetry. apply group_order_perm.
  - apply (distinct_NoDup _ opt_string_eqb_eq).
Qed.

Lemma sorted_unique_In (col : list (option string)) (v : option string) :
  In v (Polars.sort Polars.str_leb (Polars.unique col)) <-> In v col.
Proof.
  split.
  - intros Hv. apply unique_In. eapply Permutation_in; [apply sort_perm | exact Hv].
  - intros Hv. apply unique_In in Hv.
    eapply Permutation_in; [symmetry; apply sort_perm | exact Hv].
Qed.

Lemma sorted_unique_sorted (col : list (option string)) :
  StronglySorted (fun a b => Polars.str_leb a b = true)
                 (Polars.sort Polars.str_leb (Polars.unique col)).
Proof. apply sort_sorted; [exact str_leb_total | exact str_leb_trans]. Qed.

Lemma sorted_unique_NoDup (col : list (option string)) :
  NoDup (Polars.sort Polars.str_leb (Polars.unique col)).
Proof.
  eapply Permutation_NoDup; [symmetry; apply sort_perm | apply unique_NoDup].
Qed.
End ListingFacts.

(** Whatever order [unique] emits, the sorted list is the same. *)
Lemma sorted_unique_any_order (rt1 rt2 : Runtime) (col : list (option string)) :
  Polars.sort Polars.str_leb (@Polars.unique rt1 col)
  = Polars.sort Polars.str_leb (@Polars.unique rt2 col).
Proof.
  apply (sorted_perm_eq Polars.str_leb); [exact str_leb_antisym | | |].
  - apply sorted_unique_sorted.
  - apply sorted_unique_sorted.
  - rewrite !sort_perm. unfold Polars.unique.
    rewrite (@group_order_perm rt1), (@group_order_perm rt2). reflexivity.
Qed.

Lemma unique_countries_In `{Runtime} (df : list Row) (c : option string) :
  In c (unique_countries df) <-> exists r : Row, In r df /\ Country r = c.
Proof.
  unfold unique_countries. rewrite sorted_unique_In, in_map_iff.
  split; intros (r & ? & ?); eauto.
Qed.

Lemma unique_products_In `{Runtime} (df : list Row) (country : string)
    (d : option string) :
  In d (unique_products df country) <->
  exists r : Row,
    In r (sales_only df) /\ Country r = Some country /\ Description r = d.
Proof.
  unfold unique_products. rewrite sorted_unique_In, in_map_iff. split.
  - intros (r & <- & Hr). apply polars_filter_In in Hr as (Hr & Hc).
    apply eq_lit_true in Hc. eauto.
  - intros (r & Hr & Hc & <-). exists r. split; [reflexivity|].
    apply polars_filter_In. split; [assumption | now apply eq_lit_true].
Qed.

(** X2. [unique_countries] lists exactly the countries that occur in the
    base table, rows of returns included; the list is in ascending order
    (nulls first) without repetition, and it does not depend on the order
    in which the engine emits the distinct values. *)
Theorem X2_unique_countries `{Runtime} (df : list Row) :
  (forall c, In c (unique_countries df) <-> exists r : Row, In r df /\ Country r = c)
  /\ StronglySorted (fun a b => Polars.str_leb a b = true) (unique_countries df)
  /\ NoDup (unique_countries df)
  /\ forall rt : Runtime, @unique_countries rt df = unique_countries df.
Proof.
  split; [|unfold unique_countries; split; [|split]].
  - apply unique_countries_In.
  - apply sorted_unique_sorted.
  - apply sorted_unique_NoDup.
  - intros rt. apply sorted_unique_any_order.
Qed.

(** X3. [unique_products] lists exactly the descriptions of the
    sales-only rows of the country, in ascending order without
    repetition, whatever the order in which the engine emits them. *)
Theorem X3_unique_products `{Runtime} (df : list Row) (country : string) :
  (forall d, In d (unique_products df country) <->
     exists r : Row,
       In r (sales_only df) /\ Country r = Some country /\ Description r = d)
  /\ StronglySorted (fun a b => Polars.str_leb a b = true) (unique_products df country)
  /\ NoDup (unique_products df country)
  /\ forall rt : Runtime, @unique_products rt df country = unique_products df country.
Proof.
  split; [|unfold unique_products; split; [|split]].
  - intros d. apply unique_products_In.
  - apply sorted_unique_sorted.
  - apply sorted_unique_NoDup.
  - intros rt. apply sorted_unique_any_order.
Qed.

(** X4. On a loaded table neither list holds a null: every entry of
    [unique_countries] and of [unique_products] is a text. *)
Theorem X4_listings_hold_no_null `{Runtime} (scan : list CsvRow) :
  (forall c, In c (unique_countries (_read_csv scan)) -> exists s, c = Some s)
  /\ (forall country d, In d (unique_products (_read_csv scan) country) ->
        exists s, d = Some s).
Proof.
  split.
  - intros c Hc. apply unique_countries_In in Hc as (r & Hr & <-).
    apply read_csv_no_null, no_null_columns in Hr
      as (? & ? & ? & ? & ? & ? & ? & s & E).
    exists s. now rewrite E.
  - intros country d Hd. apply unique_products_In in Hd as (r & Hr & _ & <-).
    apply sales_only_sub, read_csv_no_null, no_null_columns in Hr
      as (? & ? & s & ? & ? & ? & ? & ? & E).
    exists s. now rewrite E.
Qed.

(* ------------------------------------------------------------------ *)
(** ** How the queries fit together *)

Lemma group_order_nil `{Runtime} (A : Type) : group_order A [] = [].
Proof. apply Permutation_nil. symmetry. apply group_order_perm. Qed.

Lemma quantity_by_date_nil `{Runtime} : quantity_by_date [] = [].
Proof.
  unfold quantity_by_date, Polars.group_by. simpl. now rewrite group_order_nil.
Qed.

Lemma polars_filter_nil {R : Type} (pred : R -> option bool) (df : list R) :
  (forall r, In r df -> pred r <> Some true) -> Polars.filter pred df = [].
Proof.
  intros Hno. destruct (Polars.filter pred df) as [|r l] eqn:E; [reflexivity|].
  assert (Hr : In r (Polars.filter pred df)) by (rewrite E; now left).
  apply polars_filter_In in Hr as (Hr & Hp). now destruct (Hno r Hr).
Qed.

Lemma revenue_per_article_In `{Runtime} (df : list Row) (country : string)
    (desc : option string) (rev : Q) :
  In (desc, rev) (revenue_per_article_per_country df country) ->
  exists r : Row,
    In r (sales_only df) /\ Country r = Some country /\ Description r = desc.
Proof.
  unfold revenue_per_article_per_country, Polars.head, Polars.agg. intros Hin.
  apply firstn_In in Hin. apply (Permutation_in _ (sort_perm _ _)) in Hin.
  apply in_map_iff in Hin as ([k g] & [= <- <-] & Hg).
  apply (group_by_In _ opt_string_eqb_eq) in Hg as ((r & Hr & <-) & _).
  apply polars_filter_In in Hr as (Hr & Hc). apply eq_lit_true in Hc. eauto.
Qed.

(** X5. [unique_products] offers for a country exactly the products
    that have a time series there: a product is in the list if and only
    if [get_country_quantity] returns at least one point for it. *)
Theorem X5_offered_product_has_points `{Runtime} (df : list Row)
    (country product : string) :
  In (Some product) (unique_products df country) <->
  get_country_quantity df country product <> [].
Proof.
  rewrite unique_products_In. unfold get_country_quantity. split.
  - intros (r & Hr & Hc & Hd) Hnil.
    assert (Hpt : exists q,
              In (Date r, q)
                 (quantity_by_date
                    (Polars.filter
                       (fun r : Row =>
                          Polars.and_ (Polars.eq_lit (Country r) country)
                                      (Polars.eq_lit (Description r) product))
                       (sales_only df)))).
    { eexists. apply quantity_by_date_In. split; [|reflexivity].
      exists r. split; [|reflexivity]. apply polars_filter_In. split; [assumption|].
      apply and_true. now rewrite !eq_lit_true. }
    destruct Hpt as (q & Hpt). rewrite Hnil in Hpt. destruct Hpt.
  - intros Hne.
    destruct (quantity_by_date _) as [|[d q] l] eqn:E; [contradiction|].
    assert (Hin : In (d, q) (quantity_by_date
                    (Polars.filter
                       (fun r : Row =>
                          Polars.and_ (Polars.eq_lit (Country r) country)
                                      (Polars.eq_lit (Description r) product))
                       (sales_only df)))) by (rewrite E; now left).
    apply quantity_by_date_In in Hin as ((r & Hr & _) & _).
    apply polars_filter_In in Hr as (Hr & Hp). apply and_true in Hp as (Hc & Hd).
    apply eq_lit_true in Hc, Hd. eauto.
Qed.

Lemma X5_offered_product_has_points_witness :
  get_country_quantity (_read_csv Samples.five_days) "France" "Widget" <> [].
Proof.
  apply (proj1 (@X5_offered_product_has_points cpython _ _ _)).
  vm_compute. left. reflexivity.
Defined.

(** X6. Every description that [revenue_per_article_per_country] returns
    for a country is one that [unique_products] offers for it. *)
Theorem X6_top_articles_are_offered `{Runtime} (df : list Row) (country : string)
    (desc : option string) (rev : Q) :
  In (desc, rev) (revenue_per_article_per_country df country) ->
  In desc (unique_products df country).
Proof.
  intros Hin. apply unique_products_In. now apply revenue_per_article_In in Hin.
Qed.

Lemma X6_top_articles_are_offered_witness :
  In (Some "Widget") (unique_products (_read_csv Samples.sale_and_return) "France").
Proof.
  apply (@X6_top_articles_are_offered cpython _ _ _ 6%Q).
  vm_compute. left. reflexivity.
Defined.

Lemma round64_mag_zero (q : Q) : (q == 0)%Q -> Py.round64_mag q = Some 0%Q.
Proof.
  intros E. unfold Py.round64_mag.
  assert (Hle : Qle_bool q 0 = true) by (apply Qle_bool_iff; rewrite E; apply Qle_refl).
  now rewrite Hle.
Qed.

(** Nothing out of a total that is not zero: the float quotient is a
    zero with the sign of the total, and so is its text. *)
Lemma share_of_nothing (total : Q) :
  ~ (total == 0)%Q ->
  match Py.truediv 0 total with
  | Py.Ok ratio =>
      Py.format_2f (Py.float_mul ratio 100)
      = if Py.is_negative total then "-0.00" else "0.00"
  | Py.Raise _ => False
  end.
Proof.
  intros Hnz. unfold Py.truediv.
  destruct (Qeq_bool total 0) eqn:E; [apply Qeq_bool_iff in E; contradiction|].
  unfold Py.round_signed.
  rewrite (round64_mag_zero (Qabs 0 / Qabs total)).
  - cbn [Py.float_mul]. unfold Py.round_signed.
    rewrite (round64_mag_zero (0 * 100)) by reflexivity.
    change (Py.is_negative 0) with false. cbn [xorb].
    destruct (Py.is_negative total); reflexivity.
  - unfold Qdiv. change (Qabs 0) with 0%Q. apply Qmult_0_l.
Qed.

(** X7. On a base table with rows, for a country that no row carries,
    the article ranking, the product list and both quantity series are
    empty (the global series too, whatever the other countries sold), and
    with a total that is not zero the revenue share is the row of
    revenue 0 and percentage ["0.00"], or ["-0.00"] under a negative
    total. *)
Theorem X7_unknown_country `{Runtime} (df : list Row) (country : string) :
  df <> [] ->
  (forall r : Row, In r df -> Country r <> Some country) ->
  revenue_per_article_per_country df country = []
  /\ unique_products df country = []
  /\ (forall product,
        get_country_quantity df country product = []
        /\ get_global_quantity df country product = [])
  /\ (Polars.within_float64 (map Revenue df) = true ->
      ~ (total_revenue df == 0)%Q ->
      total_revenue_vs_country df country
      = Py.Ok [ mk_share "Total Global Revenue" (total_revenue df) EmptyString;
                mk_share country 0
                  (if Py.is_negative (total_revenue df) then "-0.00" else "0.00") ]).
Proof.
  intros Hne Hno.
  assert (Hsales : Polars.filter (fun r : Row => Polars.eq_lit (Country r) country)
                                 (sales_only df) = []).
  { apply polars_filter_nil. intros r Hr Hc. apply eq_lit_true in Hc.
    apply sales_only_sub in Hr. now apply (Hno r). }
  assert (Hlocal : forall product, get_country_quantity df country product = []).
  { intros product. unfold get_country_quantity.
    rewrite polars_filter_nil; [apply quantity_by_date_nil|].
    intros r Hr Hp. apply and_true in Hp as (Hc & _). apply eq_lit_true in Hc.
    apply sales_only_sub in Hr. now apply (Hno r). }
  split; [|split; [|split]].
  - unfold revenue_per_article_per_country. rewrite Hsales.
    unfold Polars.group_by. simpl. now rewrite group_order_nil.
  - unfold unique_products, Polars.unique. rewrite Hsales. simpl.
    now rewrite group_order_nil.
  - intros product. split; [apply Hlocal|].
    unfold get_global_quantity. rewrite Hlocal.
    rewrite polars_filter_nil; [apply quantity_by_date_nil|].
    intros r _ Hp. apply and_true in Hp as (_ & Hin).
    apply is_in_true in Hin. destruct Hin.
  - intros _ Hnz.
    assert (Hc : country_revenue df country = 0%Q).
    { unfold country_revenue.
      rewrite (polars_filter_nil (fun r : Row => Polars.eq_lit (Country r) country) df).
      - apply float_sum_nil.
      - intros r Hr Hc. apply eq_lit_true in Hc. now apply (Hno r). }
    unfold total_revenue_vs_country. destruct df as [|r df']; [contradiction|].
    rewrite Hc. pose proof (share_of_nothing _ Hnz) as Hs.
    destruct (Py.truediv 0 (total_revenue (r :: df'))) as [ratio|e];
      [|contradiction].
    now rewrite Hs.
Qed.

Lemma X7_unknown_country_witness :
  let df := _read_csv Samples.sale_and_return in
  revenue_per_article_per_country df "Spain" = []
  /\ unique_products df "Spain" = []
  /\ (forall product,
        get_country_quantity df "Spain" product = []
        /\ get_global_quantity df "Spain" product = [])
  /\ (Polars.within_float64 (map Revenue df) = true ->
      ~ (total_revenue df == 0)%Q ->
      total_revenue_vs_country df "Spain"
      = Py.Ok [ mk_share "Total Global Revenue" (total_revenue df) EmptyString;
                mk_share "Spain" 0
                  (if Py.is_negative (total_revenue df) then "-0.00" else "0.00") ]).
Proof.
  apply (@X7_unknown_country cpython (_read_csv Samples.sale_and_return) "Spain").
  - vm_compute. discriminate.
  - intros r Hr. vm_compute in Hr.
    repeat (destruct Hr as [<-|Hr]; [discriminate|]). destruct Hr.
Defined.

(** The row of a country without sales, evaluated: a share of 0.00 of
    the total of 24. *)
Lemma share_of_an_unknown_country :
  total_revenue_vs_country (_read_csv Samples.sale_and_return) "Spain"
  = Py.Ok [ mk_share "Total Global Revenue" 24 EmptyString;
            mk_share "Spain" 0 "0.00" ].
Proof. vm_compute. reflexivity. Qed.

(* ------------------------------------------------------------------ *)
(** ** The cached views *)

(** What the two cache slots may hold: nothing yet, or the view of the
    object's own base table. *)
Lemma returns_only_property_spec (self : Self) :
  (_returns_only self = None
   \/ _returns_only self = Some (returns_only (self_df_lazy self))) ->
  fst (returns_only_property self) = returns_only (self_df_lazy self)
  /\ self_df_lazy (snd (returns_only_property self)) = self_df_lazy self
  /\ _returns_only (snd (returns_only_property self))
     = Some (returns_only (self_df_lazy self))
  /\ _sales_only (snd (returns_only_property self)) = _sales_only self.
Proof.
  unfold returns_only_property. intros [E|E]; rewrite E; simpl; auto.
Qed.

(** X8. The cache of the two views is transparent. Starting from a fresh
    object, or from any object whose slots are empty or hold the views of
    its own base table, reading [sales_only] gives the anti-join of the
    base table, leaves the base table untouched, and leaves both slots
    filled with the views of that table; so every later read, of either
    view, returns the same value again without recomputing. *)
Theorem X8_cached_views_are_transparent (self : Self) :
  (_returns_only self = None
   \/ _returns_only self = Some (returns_only (self_df_lazy self))) ->
  (_sales_only self = None
   \/ _sales_only self = Some (sales_only (self_df_lazy self))) ->
  let self' := snd (sales_only_property self) in
  fst (sales_only_property self) = sales_only (self_df_lazy self)
  /\ self_df_lazy self' = self_df_lazy self
  /\ _sales_only self' = Some (sales_only (self_df_lazy self))
  /\ (_returns_only self' = None
      \/ _returns_only self' = Some (returns_only (self_df_lazy self)))
  /\ sales_only_property self' = (sales_only (self_df_lazy self), self')
  /\ fst (returns_only_property self') = returns_only (self_df_lazy self).
Proof.
  intros Hr Hs self'.
  assert (Hmain : fst (sales_only_property self) = sales_only (self_df_lazy self)
                  /\ self_df_lazy self' = self_df_lazy self
                  /\ _sales_only self' = Some (sales_only (self_df_lazy self))
                  /\ (_returns_only self' = None
                      \/ _returns_only self' = Some (returns_only (self_df_lazy self)))).
  { unfold self', sales_only_property.
    destruct Hs as [E|E]; rewrite E.
    - destruct (returns_only_property_spec self Hr) as (Hv & Hdf & Hc & _).
      destruct (returns_only_property self) as [returns self1]. simpl in *.
      subst returns. unfold sales_only. rewrite Hdf. auto.
    - simpl. auto. }
  destruct Hmain as (Hv & Hdf & Hc & Hr').
  split; [exact Hv|]. split; [exact Hdf|]. split; [exact Hc|].
  split; [exact Hr'|]. split.
  - unfold sales_only_property at 1. rewrite Hc. reflexivity.
  - rewrite <- Hdf. apply returns_only_property_spec. rewrite Hdf. exact Hr'.
Qed.

(** The object just built from a file. *)
Lemma X8_cached_views_are_transparent_witness :
  let self := __init__ Samples.sale_and_return in
  let self' := snd (sales_only_property self) in
  fst (sales_only_property self) = sales_only (self_df_lazy self)
  /\ self_df_lazy self' = self_df_lazy self
  /\ _sales_only self' = Some (sales_only (self_df_lazy self))
  /\ (_returns_only self' = None
      \/ _returns_only self' = Some (returns_only (self_df_lazy self)))
  /\ sales_only_property self' = (sales_only (self_df_lazy self), self')
  /\ fst (returns_only_property self') = returns_only (self_df_lazy self).
Proof.
  apply (X8_cached_views_are_transparent (__init__ Samples.sale_and_return)).
  - left. reflexivity.
  - left. reflexivity.
Defined.

(* ------------------------------------------------------------------ *)
(** ** The global series and null dates *)

(** X9. With the null rule of current polars ([is_in] gives null for a
    null operand), the global series never has a point with a null date:
    rows of other countries whose timestamp did not parse are left out of
    it, even when the local series has its own null-date point. *)
Theorem X9_global_series_has_no_null_date `{Runtime} (df : list Row)
    (country product : string) (q : Z) :
  nulls_equal = false ->
  ~ In (None, q) (get_global_quantity df country product).
Proof.
  intros Hrule Hin. unfold get_global_quantity in Hin.
  apply quantity_by_date_In in Hin as ((r & Hr & Hd) & _).
  apply polars_filter_In in Hr as (_ & Hp). apply and_true in Hp as (_ & Hp).
  unfold Polars.is_in in Hp. rewrite Hd, Hrule in Hp. discriminate.
Qed.

(** France has a null-date point of its own; Germany's null-date sale is
    not in the global series. *)
Lemma X9_global_series_has_no_null_date_witness :
  In (None, 3) (get_country_quantity (_read_csv Samples.null_dates_abroad) "France" "Widget")
  /\ ~ In (None, 7)
         (get_global_quantity (_read_csv Samples.null_dates_abroad) "France" "Widget").
Proof.
  split; [vm_compute; left; reflexivity|].
  apply (@X9_global_series_has_no_null_date cpython). reflexivity.
Defined.

(* ------------------------------------------------------------------ *)
(** ** The frame of the time-series chart *)

Lemma int_tenth_nonneg (days : Z) :
  0 <= days -> 0 <= Dashboard.int_of_float (inject_Z days * Dashboard.float_tenth).
Proof.
  intros Hd. unfold Dashboard.int_of_float, Dashboard.float_tenth. simpl.
  apply Z.quot_pos; lia.
Qed.

(** X10. What [plot_article_timeseries] hands to the chart is consistent:
    each trace has as many dates as quantities; [y_max] is at least every
    plotted quantity, and it is positive exactly when some plotted
    quantity is; every plotted date lies between [first_date] and
    [extended_date], the two ends of the x-axis. *)
Theorem X10_chart_frame `{Runtime} (df : list Row) (country product : string)
    (today_first today_last : Z) :
  let ts := Dashboard.plot_article_timeseries df country product today_first today_last in
  List.length (Dashboard.country_dates ts) = List.length (Dashboard.country_qty ts)
  /\ List.length (Dashboard.global_dates ts) = List.length (Dashboard.global_qty ts)
  /\ (forall q, In q (Dashboard.country_qty ts ++ Dashboard.global_qty ts)%list ->
                q <= Dashboard.y_max ts)
  /\ (0 < Dashboard.y_max ts <->
      exists q, In q (Dashboard.country_qty ts ++ Dashboard.global_qty ts)%list /\ 0 < q)
  /\ (forall d, In d (Dashboard.country_dates ts ++ Dashboard.global_dates ts)%list ->
                Dashboard.first_date ts <= d <= Dashboard.extended_date ts).
Proof.
  intros ts. unfold ts, Dashboard.plot_article_timeseries.
  cbn [Dashboard.country_dates Dashboard.country_qty Dashboard.global_dates
       Dashboard.global_qty Dashboard.first_date Dashboard.extended_date
       Dashboard.y_max].
  split; [now rewrite !length_map|]. split; [now rewrite !length_map|].
  split; [|split].
  - intros q Hq.
    destruct (map snd (get_country_quantity df country product)
              ++ map snd (get_global_quantity df country product))%list
      as [|x l]; [destruct Hq|].
    destruct (py_max_spec x l) as (_ & Hmax). rewrite Forall_forall in Hmax. auto.
  - destruct (map snd (get_country_quantity df country product)
              ++ map snd (get_global_quantity df country product))%list
      as [|x l].
    + split; [lia | intros (q & [] & _)].
    + destruct (py_max_spec x l) as (Hin & Hmax). rewrite Forall_forall in Hmax.
      split; [eauto|]. intros (q & Hq & Hpos). specialize (Hmax q Hq). lia.
  - intros d Hd.
    destruct (map Dashboard.to_datetime_safe
                (map fst (get_country_quantity df country product))
              ++ map Dashboard.to_datetime_safe
                   (map fst (get_global_quantity df country product)))%list
      as [|x l]; [destruct Hd|].
    destruct (py_min_spec x l) as (_ & Hmin). destruct (py_max_spec x l) as (_ & Hmax).
    rewrite Forall_forall in Hmin, Hmax.
    pose proof (Hmin d Hd). pose proof (Hmax d Hd).
    assert (0 <= Dashboard.int_of_float
                   (inject_Z (Dashboard.timedelta_days
                                (Dashboard.py_max x l - Dashboard.py_min x l))
                    * Dashboard.float_tenth)).
    { apply int_tenth_nonneg. unfold Dashboard.timedelta_days, Py.us_per_day.
      apply Z.div_pos; lia. }
    unfold Py.us_per_day. lia.
Qed.

Lemma StronglySorted_map_in {A B : Type} (P : A -> A -> Prop) (Q : B -> B -> Prop)
    (f : A -> B) (l : list A) :
  (forall a b, In a l -> In b l -> P a b -> Q (f a) (f b)) ->
  StronglySorted P l -> StronglySorted Q (map f l).
Proof.
  intros Hf Hs. induction Hs as [|x l Hs IH Hx]; simpl; constructor.
  - apply IH. intros a b Ha Hb. apply Hf; now right.
  - rewrite Forall_forall in *. intros y Hy.
    apply in_map_iff in Hy as (a & <- & Ha).
    apply Hf; [now left | now right | auto].
Qed.

Lemma series_dates_ascending `{Runtime} (df rows : list Row) :
  forallb (fun r : Row => match Date r with Some d => 10957 <=? d | None => true end) df
  = true ->
  (forall r, In r rows -> In r df) ->
  StronglySorted Z.le
    (map Dashboard.to_datetime_safe (map fst (quantity_by_date rows))).
Proof.
  intros Hdf Hsub. rewrite forallb_forall in Hdf. rewrite map_map.
  eapply StronglySorted_map_in; [|apply quantity_by_date_sorted].
  intros [a qa] [b qb] Ha Hb. simpl.
  assert (Hlate : forall (d : option Z) q, In (d, q) (quantity_by_date rows) ->
            forall x, d = Some x -> 10957 <= x).
  { intros d q Hin x ->. apply quantity_by_date_In in Hin as ((r & Hr & Hd) & _).
    specialize (Hdf r (Hsub r Hr)). rewrite Hd in Hdf. now apply Z.leb_le. }
  pose proof (Hlate _ _ Ha) as Hla. pose proof (Hlate _ _ Hb) as Hlb.
  destruct a as [x|], b as [y|]; simpl; try discriminate.
  - rewrite Z.leb_le. unfold Py.us_per_day. lia.
  - intros _. specialize (Hlb y eq_refl).
    change (Py.datetime_to_us (Py.mk_datetime 2000 1 1 0 0 0))
      with (10957 * Py.us_per_day).
    unfold Py.us_per_day. lia.
Qed.

(** X11. When no row of the base table is dated before 2000-01-01, the
    dates of each trace come to the chart in ascending order, even with a
    null-date point: it is placed at 2000-01-01 and is the first of its
    trace. *)
Theorem X11_trace_dates_ascending `{Runtime} (df : list Row)
    (country product : string) (today_first today_last : Z) :
  forallb (fun r : Row => match Date r with Some d => 10957 <=? d | None => true end) df
  = true ->
  let ts := Dashboard.plot_article_timeseries df country product today_first today_last in
  StronglySorted Z.le (Dashboard.country_dates ts)
  /\ StronglySorted Z.le (Dashboard.global_dates ts).
Proof.
  intros Hdf ts. unfold ts, Dashboard.plot_article_timeseries.
  cbn [Dashboard.country_dates Dashboard.global_dates].
  split.
  - unfold get_country_quantity. apply (series_dates_ascending df); [assumption|].
    intros r Hr. apply polars_filter_In in Hr as (Hr & _). now apply sales_only_sub.
  - unfold get_global_quantity. apply (series_dates_ascending df); [assumption|].
    intros r Hr. apply polars_filter_In in Hr as (Hr & _). now apply sales_only_sub.
Qed.

Lemma X11_trace_dates_ascending_witness :
  let ts := Dashboard.plot_article_timeseries (_read_csv Samples.null_dates_abroad)
              "France" "Widget" 0 0 in
  StronglySorted Z.le (Dashboard.country_dates ts)
  /\ StronglySorted Z.le (Dashboard.global_dates ts).
Proof.
  apply (@X11_trace_dates_ascending cpython (_read_csv Samples.null_dates_abroad)).
  vm_compute. reflexivity.
Defined.

(* ------------------------------------------------------------------ *)
(** ** The highlighted country *)

Lemma highlight_sum (countries : list (option string)) (selected : option string) :
  NoDup countries ->
  fold_right Z.add 0 (Dashboard.highlight countries selected)
  = if existsb (fun c => Polars.opt_string_eqb c selected) countries then 1 else 0.
Proof.
  unfold Dashboard.highlight. induction 1 as [|c l Hc Hl IH]; simpl; [reflexivity|].
  rewrite IH. destruct (Polars.opt_string_eqb c selected) eqn:E; simpl; [|reflexivity].
  apply opt_string_eqb_eq in E. subst c.
  destruct (existsb _ l) eqn:Hex; [|reflexivity].
  apply existsb_exists in Hex as (x & Hx & Ex). apply opt_string_eqb_eq in Ex.
  subst x. contradiction.
Qed.

(** X12. The map highlights exactly one country. The dashboard's country
    list is a rearrangement of [unique_countries] (it is sorted once
    more); for a selection taken from it, the [highlight] column has one
    entry per country, each 0 or 1, and they add up to 1. *)
Theorem X12_one_country_highlighted `{Runtime} (df : list Row)
    (countries : list (option string)) (selected_country : option string) :
  Permutation countries (unique_countries df) ->
  In selected_country countries ->
  List.length (Dashboard.highlight countries selected_country) = List.length countries
  /\ Forall (fun h => h = 0 \/ h = 1) (Dashboard.highlight countries selected_country)
  /\ fold_right Z.add 0 (Dashboard.highlight countries selected_country) = 1.
Proof.
  intros Hperm Hsel. split; [apply length_map|]. split.
  - unfold Dashboard.highlight. apply Forall_forall. intros h Hh.
    apply in_map_iff in Hh as (c & <- & _).
    destruct (Polars.opt_string_eqb c selected_country); auto.
  - rewrite highlight_sum.
    + assert (Hex : existsb (fun c => Polars.opt_string_eqb c selected_country) countries
                    = true).
      { apply existsb_exists. exists selected_country. split; [assumption|].
        now apply opt_string_eqb_eq. }
      now rewrite Hex.
    + eapply Permutation_NoDup; [symmetry; exact Hperm|].
      unfold unique_countries. apply sorted_unique_NoDup.
Qed.

Lemma X12_one_country_highlighted_witness :
  let countries := unique_countries (_read_csv Samples.sale_and_return) in
  List.length (Dashboard.highlight countries (Some "Germany")) = List.length countries
  /\ Forall (fun h => h = 0 \/ h = 1) (Dashboard.highlight countries (Some "Germany"))
  /\ fold_right Z.add 0 (Dashboard.highlight countries (Some "Germany")) = 1.
Proof.
  apply (@X12_one_country_highlighted cpython (_read_csv Samples.sale_and_return)).
  - reflexivity.
  - vm_compute. right. left. reflexivity.
Defined.

(* ------------------------------------------------------------------ *)
(** ** When the load keeps the row count *)

Lemma list_sum_ones {A : Type} (g : A -> nat) (l : list A) :
  (forall x, In x l -> (1 <= g x)%nat) ->
  (list_sum (map g l) = List.length l <-> forall x, In x l -> g x = 1%nat)
  /\ (List.length l <= list_sum (map g l))%nat.
Proof.
  induction l as [|a l IH]; intros Hg; simpl.
  - split; [split; [intros _ x [] | reflexivity] | lia].
  - destruct IH as (IH & Hle); [intros x Hx; apply Hg; now right|].
    pose proof (Hg a (or_introl eq_refl)) as Ha.
    split; [|lia]. split.
    + intros Hsum x [<-|Hx]; [lia|]. apply IH; [lia | assumption].
    + intros Hall. rewrite (Hall a (or_introl eq_refl)).
      assert (list_sum (map g l) = List.length l)
        by (apply IH; intros x Hx; apply Hall; now right).
      lia.
Qed.

Lemma same_key_count (l : list CsvRow) :
  NoDup (map InvoiceDate l) <->
  forall r, In r l ->
    List.length
      (List.filter
         (fun r' : CsvRow => Polars.opt_string_eqb (InvoiceDate r') (InvoiceDate r)) l)
    = 1%nat.
Proof.
  induction l as [|x l IH]; simpl.
  - split; [intros _ r [] | constructor].
  - assert (Hxx : Polars.opt_string_eqb (InvoiceDate x) (InvoiceDate x) = true)
      by now apply opt_string_eqb_eq.
    split.
    + intros Hnd r Hr. inversion Hnd as [|k ks Hx Hl]; subst.
      assert (Hnone : forall v, ~ In v (map InvoiceDate l) ->
                List.filter (fun r' : CsvRow => Polars.opt_string_eqb (InvoiceDate r') v) l
                = []).
      { intros v Hv. destruct (List.filter _ l) as [|y ys] eqn:E; [reflexivity|].
        assert (Hy : In y (List.filter
                             (fun r' : CsvRow =>
                                Polars.opt_string_eqb (InvoiceDate r') v) l))
          by (rewrite E; now left).
        apply filter_In in Hy as (Hy & Ey). apply opt_string_eqb_eq in Ey.
        destruct Hv. rewrite <- Ey. now apply in_map. }
      destruct Hr as [<-|Hr].
      * rewrite Hxx. simpl. now rewrite Hnone.
      * destruct (Polars.opt_string_eqb (InvoiceDate x) (InvoiceDate r)) eqn:E.
        -- apply opt_string_eqb_eq in E. destruct Hx. rewrite E. now apply in_map.
        -- apply IH; assumption.
    + intros Hall. constructor.
      * intros Hx. apply in_map_iff in Hx as (y & Ey & Hy).
        specialize (Hall x (or_introl eq_refl)). rewrite Hxx in Hall. simpl in Hall.
        assert (Hin : In y (List.filter
                              (fun r' : CsvRow =>
                                 Polars.opt_string_eqb (InvoiceDate r') (InvoiceDate x)) l))
          by (apply filter_In; split; [assumption | now apply opt_string_eqb_eq]).
        destruct (List.filter _ l); [destruct Hin | discriminate].
      * apply IH. intros r Hr. specialize (Hall r (or_intror Hr)).
        destruct (Polars.opt_string_eqb (InvoiceDate x) (InvoiceDate r)); [|assumption].
        simpl in Hall.
        assert (Hin : In r (List.filter
                              (fun r' : CsvRow =>
                                 Polars.opt_string_eqb (InvoiceDate r') (InvoiceDate r)) l))
          by (apply filter_In; split; [assumption | now apply opt_string_eqb_eq]).
        destruct (List.filter _ l); [destruct Hin | discriminate].
Qed.

(** X14. The base table never has fewer rows than the file has complete
    rows, and it has exactly as many if and only if no two complete rows
    carry the same timestamp text. *)
Theorem X14_row_count_kept_iff_timestamps_distinct `{Runtime} (scan : list CsvRow) :
  (List.length (drop_nulls scan) <= List.length (_read_csv scan))%nat
  /\ (List.length (_read_csv scan) = List.length (drop_nulls scan)
      <-> NoDup (map InvoiceDate (drop_nulls scan))).
Proof.
  rewrite read_csv_length.
  destruct (list_sum_ones
              (fun r : CsvRow =>
                 List.length
                   (List.filter
                      (fun r' : CsvRow =>
                         Polars.opt_string_eqb (InvoiceDate r') (InvoiceDate r))
                      (drop_nulls scan)))
              (drop_nulls scan)) as (Hiff & Hle).
  - intros r Hr.
    assert (Hin : In r (List.filter
                          (fun r' : CsvRow =>
                             Polars.opt_string_eqb (InvoiceDate r') (InvoiceDate r))
                          (drop_nulls scan)))
      by (apply filter_In; split; [assumption | now apply opt_string_eqb_eq]).
    destruct (List.filter _ (drop_nulls scan)); [destruct Hin | simpl; lia].
  - split; [exact Hle|]. rewrite Hiff. symmetry. apply same_key_count.
Qed.

(* ------------------------------------------------------------------ *)
(** ** The ranking keeps the best *)




(* ------------------------------------------------------------------ *)
(** ** Where the null-date point comes from *)

(** X16. On a loaded table the local series has a point with a null date
    if and only if some sales-only row of the country and product carries
    a timestamp that neither format parses. *)
Theorem X16_null_point_iff_unparsed_timestamp `{Runtime} (scan : list CsvRow)
    (country product : string) :
  (exists q, In (None, q) (get_country_quantity (_read_csv scan) country product))
  <->
  exists r : Row,
    In r (sales_only (_read_csv scan))
    /\ Country r = Some country /\ Description r = Some product
    /\ parse_date (InvoiceDate r) = None.
Proof.
  assert (Hdate : forall r : Row, In r (sales_only (_read_csv scan)) ->
            (Date r = None <-> parse_date (InvoiceDate r) = None)).
  { intros r Hr. apply sales_only_sub, read_csv_In in Hr as (_ & _ & Hd & _).
    rewrite Hd. destruct (parse_date (InvoiceDate r)); simpl; split; congruence. }
  unfold get_country_quantity. split.
  - intros (q & Hin). apply quantity_by_date_In in Hin as ((r & Hr & Hd) & _).
    apply polars_filter_In in Hr as (Hr & Hp). apply and_true in Hp as (Hc & Hp).
    apply eq_lit_true in Hc, Hp. exists r. repeat split; try assumption.
    now apply Hdate.
  - intros (r & Hr & Hc & Hp & Hparse). eexists.
    apply quantity_by_date_In. split; [|reflexivity].
    exists r. split; [|now apply Hdate].
    apply polars_filter_In. split; [assumption|].
    apply and_true. now rewrite !eq_lit_true.
Qed.
